(** * StablePay merchant dashboard: chart aggregation and overview statistics

    A shallow embedding of
    - [generateChartData] and [getEmptyChartData]
      (dashboard/components/dashboard/chart/index.tsx), and
    - the stat computation of [DashboardOverview] (the overview page),
    together with the parts of the JavaScript run time they call:
    Number values (IEEE 754 binary64, as Rocq's primitive floats),
    [parseFloat], [Number], [Math.round], and the local-time [Date] methods.

    Conventions of the embedding.
    - A Number is a [float]; the transaction counter of a bucket, which
      only ever holds a small natural number, is a [Z].
    - A time value (milliseconds since the epoch) is a [Z]; an invalid Date is
      [None].
    - The reference instant [now], which the source reads from the wall clock
      ([new Date()]), is an explicit argument.
    - A string is the sequence of the UTF-8 bytes of the JavaScript string.
    - Local time is given by a zone [tza]: the offset from UTC in force at
      each instant, and the offset each local time value is read with. What
      depends on the calendar of the whole window is stated for zones with
      one fixed offset ([JSDate.fixed]).
    - A thrown [TypeError] is the [None] of the option monad. *)

From Stdlib Require Import ZArith List String Ascii Bool Lia Permutation.
From Stdlib Require Import PrimFloat FloatOps SpecFloat.
From Stdlib Require FloatAxioms.
Import ListNotations.

Set Warnings "-inexact-float".

Local Open Scope string_scope.
Local Open Scope Z_scope.
Local Open Scope list_scope.

(* ================================================================== *)
(** ** Number values *)

Module JSNumber.

(** The Number value of an integer (round to nearest, ties to even). *)
Definition of_Z (z : Z) : float :=
  SF2Prim (binary_normalize prec emax z 0 false).

(** The Number value of the decimal [(-1)^neg * m * 10^e], [0 <= m]:
    the quotient is computed with 64 guard bits and a sticky bit, and
    then rounded once. *)
Definition of_decimal (neg : bool) (m e : Z) : float :=
  if m =? 0 then (if neg then (-0)%float else 0%float)
  else
    let sgn (x : Z) := if neg then - x else x in
    if 0 <=? e then SF2Prim (binary_normalize prec emax (sgn (m * 10 ^ e)) 0 false)
    else
      let den := 10 ^ (- e) in
      let k := Z.log2_up den + 64 in
      let num := m * 2 ^ k in
      let q := num / den in
      let sticky := if num mod den =? 0 then 0 else 1 in
      SF2Prim (binary_normalize prec emax (sgn (2 * q + sticky)) (- (k + 1)) false).

Definition isNaN (x : float) : bool := negb (PrimFloat.eqb x x).

(** ToBoolean on a Number: [+0], [-0] and [NaN] are falsy. *)
Definition truthy (x : float) : bool :=
  negb (PrimFloat.eqb x 0%float) && negb (isNaN x).

(** [Math.round]: the integer closest to [x], ties towards +infinity;
    integers, infinities and NaN are returned as they are; a result of zero
    keeps the sign of [x]. *)
Definition Math_round (x : float) : float :=
  match Prim2SF x with
  | S754_finite s m e =>
      if 0 <=? e then x
      else
        let d := 2 ^ (- e) in
        let v := if s then Z.neg m else Z.pos m in
        let n := (2 * v + d) / (2 * d) in
        if n =? 0 then (if s then (-0)%float else 0%float) else of_Z n
  | _ => x
  end.

(** ToIntegerOrInfinity restricted to finite values: truncation towards
    zero. [None] for NaN and the infinities. *)
Definition truncate (x : float) : option Z :=
  match Prim2SF x with
  | S754_zero _ => Some 0
  | S754_finite s m e =>
      let a := if 0 <=? e then Z.pos m * 2 ^ e else Z.pos m / 2 ^ (- e) in
      Some (if s then - a else a)
  | _ => None
  end.

End JSNumber.

(* ================================================================== *)
(** ** Strings to numbers *)

Module JSString.

Definition code (c : ascii) : Z := Z.of_N (N_of_ascii c).

Definition is_digit (c : ascii) : bool := (48 <=? code c) && (code c <=? 57).

(** WhiteSpace and LineTerminator code points of one byte: U+0009 to
    U+000D and U+0020. *)
Definition is_space (c : ascii) : bool :=
  let n := code c in ((9 <=? n) && (n <=? 13)) || (n =? 32).

(** U+00A0, in its two bytes. *)
Definition is_space2 (a b : ascii) : bool :=
  (code a =? 194) && (code b =? 160).

(** The WhiteSpace and LineTerminator code points of three bytes: U+1680,
    U+2000 to U+200A, U+2028, U+2029, U+202F, U+205F, U+3000 and U+FEFF. *)
Definition is_space3 (a b c : ascii) : bool :=
  let '(x, y, z) := (code a, code b, code c) in
  ((x =? 225) && (y =? 154) && (z =? 128))
  || ((x =? 226) && (y =? 128)
      && (((128 <=? z) && (z <=? 138)) || (z =? 168) || (z =? 169) || (z =? 175)))
  || ((x =? 226) && (y =? 129) && (z =? 159))
  || ((x =? 227) && (y =? 128) && (z =? 128))
  || ((x =? 239) && (y =? 187) && (z =? 191)).

(** [s] without the white space at its start. *)
Fixpoint trim_start (s : string) : string :=
  match s with
  | String a r =>
      if is_space a then trim_start r
      else
        match r with
        | String b r2 =>
            if is_space2 a b then trim_start r2
            else
              match r2 with
              | String c r3 => if is_space3 a b c then trim_start r3 else s
              | EmptyString => s
              end
        | EmptyString => s
        end
  | EmptyString => s
  end.

(** [s] without the white space at its end: the first suffix that is white
    space only is cut off. *)
Fixpoint trim_end (s : string) : string :=
  match s with
  | EmptyString => EmptyString
  | String a r =>
      match trim_start s with
      | EmptyString => EmptyString
      | _ => String a (trim_end r)
      end
  end.

(** Reads the longest run of decimal digits: the value accumulated on
    [acc], the number of digits read, and the rest of the string. *)
Fixpoint digits (s : string) (acc cnt : Z) : Z * Z * string :=
  match s with
  | String c r =>
      if is_digit c then digits r (10 * acc + (code c - 48)) (cnt + 1)
      else (acc, cnt, s)
  | EmptyString => (acc, cnt, s)
  end.

Definition sign (s : string) : bool * string :=
  match s with
  | String "-" r => (true, r)
  | String "+" r => (false, r)
  | _ => (false, s)
  end.

(** ExponentPart, when one is present: [e] or [E], an optional sign and at
    least one digit. Otherwise the exponent is 0 and nothing is read. *)
Definition exponent (s : string) : Z * string :=
  match s with
  | String c r =>
      if (code c =? 101) || (code c =? 69) then
        let '(neg, r1) := sign r in
        let '(e, n, r2) := digits r1 0 0 in
        if n =? 0 then (0, s) else ((if neg then - e else e), r2)
      else (0, s)
  | EmptyString => (0, s)
  end.

(** The longest prefix of [s] that is a StrDecimalLiteral: its Number
    value and the unread rest; [None] when no prefix is one. *)
Definition decimal_prefix (s : string) : option (float * string) :=
  let '(neg, s1) := sign s in
  if prefix "Infinity" s1 then
    Some ((if neg then neg_infinity else infinity),
          substring 8 (length s1 - 8) s1)
  else
    let '(m1, n1, r1) := digits s1 0 0 in
    match r1 with
    | String "." r2 =>
        let '(m2, n12, r3) := digits r2 m1 n1 in
        if n12 =? 0 then None
        else
          let '(e, r4) := exponent r3 in
          Some (JSNumber.of_decimal neg m2 (e - (n12 - n1)), r4)
    | _ =>
        if n1 =? 0 then None
        else
          let '(e, r4) := exponent r1 in
          Some (JSNumber.of_decimal neg m1 e, r4)
    end.

(** [parseFloat]: leading white space is skipped, the longest decimal
    literal is read, whatever follows is ignored. *)
Definition parseFloat (s : string) : float :=
  match decimal_prefix (trim_start s) with
  | Some (x, _) => x
  | None => nan
  end.

Definition digit_of (radix : Z) (c : ascii) : option Z :=
  let n := code c in
  let v := if (48 <=? n) && (n <=? 57) then n - 48
           else if (97 <=? n) && (n <=? 122) then n - 87
           else if (65 <=? n) && (n <=? 90) then n - 55
           else radix in
  if v <? radix then Some v else None.

(** A non-empty string of digits in [radix], as an integer. *)
Fixpoint radix_digits (radix : Z) (s : string) (acc : Z) : option Z :=
  match s with
  | EmptyString => Some acc
  | String c r =>
      match digit_of radix c with
      | Some v => radix_digits radix r (radix * acc + v)
      | None => None
      end
  end.

Definition radix_of (c : ascii) : option Z :=
  let n := code c in
  if (n =? 120) || (n =? 88) then Some 16
  else if (n =? 111) || (n =? 79) then Some 8
  else if (n =? 98) || (n =? 66) then Some 2
  else None.

(** StringToNumber, the conversion [Number(s)] applies to a string: white
    space is trimmed at both ends, the empty string is [+0], the whole
    rest must be one numeric literal. *)
Definition StringToNumber (s : string) : float :=
  let t := trim_end (trim_start s) in
  match t with
  | EmptyString => 0%float
  | String "0" (String c (String d r)) =>
      match radix_of c with
      | Some radix =>
          match radix_digits radix (String d r) 0 with
          | Some n => JSNumber.of_Z n
          | None => nan
          end
      | None =>
          match decimal_prefix t with
          | Some (x, EmptyString) => x
          | _ => nan
          end
      end
  | _ =>
      match decimal_prefix t with
      | Some (x, EmptyString) => x
      | _ => nan
      end
  end.

Definition digit_char (n : Z) : ascii := ascii_of_N (Z.to_N (48 + n)).

(** Decimal digits of a natural number, most significant first; [fuel]
    bounds the number of digits. *)
Fixpoint decimal (fuel : nat) (n : Z) (acc : string) : string :=
  match fuel with
  | O => acc
  | S fuel' =>
      let acc' := String (digit_char (n mod 10)) acc in
      if n <? 10 then acc' else decimal fuel' (n / 10) acc'
  end.

(** [String(n)] for an integer [n]. *)
Definition of_int (n : Z) : string :=
  if n <? 0 then String "-" (decimal (S (Z.to_nat (Z.log2 (- n)))) (- n) "")
  else decimal (S (Z.to_nat (Z.log2 n))) n "".

(** [s.padStart(2, "0")]. *)
Definition padStart2 (s : string) : string :=
  match s with
  | EmptyString => "00"
  | String c EmptyString => String "0" s
  | _ => s
  end.

End JSString.


(* ================================================================== *)
(** ** Dates *)

Module JSDate.

Definition msPerDay : Z := 86400000.

Definition Day (t : Z) : Z := t / msPerDay.
Definition TimeWithinDay (t : Z) : Z := t mod msPerDay.

(** Days in the 400-year cycle of the proleptic Gregorian calendar. *)
Definition daysPerEra : Z := 146097.
(** Day number of 0000-03-01, the start of a cycle, counted from the epoch. *)
Definition eraShift : Z := 719468.

(** Calendar date of the day [doe] of a cycle: year within the cycle
    (January and February count for the next year), month (1..12) and
    day of the month (1..31). *)
Definition civil_of_doe (doe : Z) : Z * Z * Z :=
  let yoe := (doe - doe / 1460 + doe / 36524 - doe / 146096) / 365 in
  let doy := doe - (365 * yoe + yoe / 4 - yoe / 100) in
  let mp := (5 * doy + 2) / 153 in
  let d := doy - (153 * mp + 2) / 5 + 1 in
  let m := if mp <? 10 then mp + 3 else mp - 9 in
  (yoe + (if m <=? 2 then 1 else 0), m, d).

(** Year, month (1..12) and day of the month of day number [z]. *)
Definition civil_from_days (z : Z) : Z * Z * Z :=
  let era := (z + eraShift) / daysPerEra in
  let doe := (z + eraShift) mod daysPerEra in
  let '(y, m, d) := civil_of_doe doe in
  (y + era * 400, m, d).

(** Day number of year [y], month [m] (1..12), day [d]; linear in [d], so
    a day past the end of the month runs into the next one. *)
Definition days_from_civil (y m d : Z) : Z :=
  let y' := if m <=? 2 then y - 1 else y in
  let era := y' / 400 in
  let yoe := y' mod 400 in
  let doy := (153 * (if 2 <? m then m - 3 else m + 9) + 2) / 5 + d - 1 in
  let doe := yoe * 365 + yoe / 4 - yoe / 100 + doy in
  era * daysPerEra + doe - eraShift.

Definition YearFromTime (t : Z) : Z :=
  let '(y, _, _) := civil_from_days (Day t) in y.
(** 0 is January. *)
Definition MonthFromTime (t : Z) : Z :=
  let '(_, m, _) := civil_from_days (Day t) in m - 1.
Definition DateFromTime (t : Z) : Z :=
  let '(_, _, d) := civil_from_days (Day t) in d.

(** MakeDay: months outside 0..11 carry into the year, the day of the month
    is added to the first of the month. *)
Definition MakeDay (year month date : Z) : Z :=
  let ym := year + month / 12 in
  let mn := month mod 12 in
  days_from_civil ym (mn + 1) 1 + date - 1.

Definition MakeDate (day time : Z) : Z := day * msPerDay + time.

(** TimeClip of a Number: the time value of [new Date(v)]. *)
Definition TimeClip (v : float) : option Z :=
  match JSNumber.truncate v with
  | Some t => if Z.abs t <=? 8640000000000000 then Some t else None
  | None => None
  end.

(** A time zone, in milliseconds: [offsetAt t] is the offset of local time
    from UTC in force at the instant [t] (LocalTZA(t, true)), and
    [offsetOfLocal t] the offset the local time value [t] is read with
    (LocalTZA(t, false)). *)
Record Zone : Type := mkZone {
  offsetAt : Z -> Z;
  offsetOfLocal : Z -> Z
}.

(** The zone that is always [c] milliseconds ahead of UTC. *)
Definition fixedZone (c : Z) : Zone := mkZone (fun _ => c) (fun _ => c).

(** [tza] has the one offset [c], without transitions. *)
Definition fixed (tza : Zone) (c : Z) : Prop :=
  forall t, offsetAt tza t = c /\ offsetOfLocal tza t = c.

Section LocalZone.

Variable tza : Zone.

Definition LocalTime (t : Z) : Z := t + offsetAt tza t.
Definition UTC (t : Z) : Z := t - offsetOfLocal tza t.

Definition getFullYear (t : Z) : Z := YearFromTime (LocalTime t).
Definition getMonth (t : Z) : Z := MonthFromTime (LocalTime t).
Definition getDate (t : Z) : Z := DateFromTime (LocalTime t).

(** [date.setDate(dt)], as the new time value. The dates the component
    sets are at most a year away from the wall clock, far inside the range of
    a Date, so the final TimeClip of [setDate] and [setMonth] is the
    identity and is left out. *)
Definition setDate (t dt : Z) : Z :=
  let lt := LocalTime t in
  UTC (MakeDate (MakeDay (YearFromTime lt) (MonthFromTime lt) dt)
                (TimeWithinDay lt)).

(** [date.setMonth(m)], as the new time value. *)
Definition setMonth (t m : Z) : Z :=
  let lt := LocalTime t in
  UTC (MakeDate (MakeDay (YearFromTime lt) m (DateFromTime lt))
                (TimeWithinDay lt)).

Definition monthNames : list string :=
  ["Jan"; "Feb"; "Mar"; "Apr"; "May"; "Jun";
   "Jul"; "Aug"; "Sep"; "Oct"; "Nov"; "Dec"].

(** [date.toLocaleString("en-US", { month: "short" })]. *)
Definition monthShort (t : Z) : string :=
  nth (Z.to_nat (getMonth t)) monthNames "".

End LocalZone.

End JSDate.

(* ================================================================== *)
(** ** Data model *)

(** The [timestamp] field of a TransactionEvent: absent, a Number, or a
    string. *)
Inductive Timestamp : Type :=
| TsAbsent
| TsNumber (x : float)
| TsString (s : string).

(** The fields of a TransactionEvent the dashboard reads. *)
Record TransactionEvent : Type := mkTx {
  timestamp : Timestamp;
  amountSC : option string;
  amountBC : option string
}.

Inductive TimePeriod : Type := week | month | year.

Record ChartDataPoint : Type := mkPoint {
  date : string;
  revenue : float;
  transactions : Z;
  fees : float
}.

(** A value of [groupedData]: [{ revenue: number; count: number }]. *)
Record Group : Type := mkGroup {
  g_revenue : float;
  g_count : Z
}.

(** [groupedData]: a plain object used as a map from labels to groups.
    [Object.entries] lists string keys in insertion order (no label is an
    array index), so the object is an association list in insertion order. *)
Definition GroupedData : Type := list (string * Group).

(* ================================================================== *)
(** ** Operations on [groupedData] *)

(** [groupedData[key]]; [None] is [undefined]. *)
Fixpoint lookup (key : string) (g : GroupedData) : option Group :=
  match g with
  | [] => None
  | (k, v) :: r => if String.eqb k key then Some v else lookup key r
  end.

(** [if (!groupedData[key]) groupedData[key] = { revenue: 0, count: 0 }]. *)
Definition ensure (key : string) (g : GroupedData) : GroupedData :=
  match lookup key g with
  | Some _ => g
  | None => g ++ [(key, mkGroup 0%float 0)]
  end.

Fixpoint update (key : string) (f : Group -> Group) (g : GroupedData) : GroupedData :=
  match g with
  | [] => []
  | (k, v) :: r =>
      if String.eqb k key then (k, f v) :: r else (k, v) :: update key f r
  end.

(** An assignment to a property of [groupedData[key]]: a [TypeError] when
    [groupedData[key]] is [undefined]. *)
Definition modify (key : string) (f : Group -> Group) (g : GroupedData)
  : option GroupedData :=
  match lookup key g with
  | Some _ => Some (update key f g)
  | None => None
  end.

Definition bind {A B : Type} (m : option A) (k : A -> option B) : option B :=
  match m with
  | Some a => k a
  | None => None
  end.

Notation "x <- m ;; k" := (bind m (fun x => k))
  (at level 61, m at next level, right associativity).

(** [array.forEach(callback)], the callback threading [groupedData]. *)
Fixpoint forEach {A S : Type} (f : S -> A -> option S) (l : list A) (s : S)
  : option S :=
  match l with
  | [] => Some s
  | a :: r => s' <- f s a ;; forEach f r s'
  end.

(** [for (let i = n - 1; i >= 0; i--) body(i)]. *)
Fixpoint countdown {S : Type} (body : Z -> S -> S) (n : nat) (s : S) : S :=
  match n with
  | O => s
  | S i => countdown body i (body (Z.of_nat i) s)
  end.

(* ================================================================== *)
(** ** Reading a transaction *)

(** [!tx.timestamp]. *)
Definition falsy (ts : Timestamp) : bool :=
  match ts with
  | TsAbsent => true
  | TsNumber x => negb (JSNumber.truthy x)
  | TsString s => String.eqb s ""
  end.

(** [Number(tx.timestamp)]. *)
Definition Number (ts : Timestamp) : float :=
  match ts with
  | TsAbsent => nan
  | TsNumber x => x
  | TsString s => JSString.StringToNumber s
  end.

(** [new Date(Number(tx.timestamp) * 1000)], as a time value. *)
Definition txDate (tx : TransactionEvent) : option Z :=
  JSDate.TimeClip (Number (timestamp tx) * 1000)%float.

(** [a || "0"] on an optional string. *)
Definition orZero (a : option string) : string :=
  match a with
  | Some s => if String.eqb s "" then "0" else s
  | None => "0"
  end.

(** [groupedData[key].revenue += parseFloat(tx.amountSC || "0")]. *)
Definition addRevenue (tx : TransactionEvent) (v : Group) : Group :=
  mkGroup (g_revenue v + JSString.parseFloat (orZero (amountSC tx)))%float
          (g_count v).

(** [groupedData[key].count += 1]. *)
Definition addCount (v : Group) : Group :=
  mkGroup (g_revenue v) (g_count v + 1).

(** The guarded update both branches share:
    [if (groupedData[key]) { ...revenue += ...; ...count += 1; }]. *)
Definition record (key : string) (tx : TransactionEvent) (g : GroupedData)
  : option GroupedData :=
  match lookup key g with
  | Some _ =>
      g1 <- modify key (addRevenue tx) g ;;
      modify key addCount g1
  | None => Some g
  end.

(* ================================================================== *)
(** ** The chart component: [generateChartData], [getEmptyChartData] *)

Section Chart.

(** The local zone, and the value of [new Date()]. *)
Variable tza : JSDate.Zone.
Variable now : Z.

(** [dateFormat]: day and month of the local date, two digits each. Both
    branches of the source define the same function. *)
Definition dateFormat (d : Z) : string :=
  (JSString.padStart2 (JSString.of_int (JSDate.getDate tza d)) ++ "/" ++
   JSString.padStart2 (JSString.of_int (JSDate.getMonth tza d + 1)))%string.

(** The label of the month [i] months back:
    [date = new Date(now); date.setMonth(date.getMonth() - i)]. *)
Definition monthKey (i : Z) : string :=
  JSDate.monthShort tza (JSDate.setMonth tza now (JSDate.getMonth tza now - i)).

(** The label of the day [i] days back:
    [date = new Date(now); date.setDate(date.getDate() - i)]. *)
Definition dayKey (i : Z) : string :=
  dateFormat (JSDate.setDate tza now (JSDate.getDate tza now - i)).

(** [(now.getFullYear() - txDate.getFullYear()) * 12
     + (now.getMonth() - txDate.getMonth())]. *)
Definition monthDiff (t : Z) : Z :=
  (JSDate.getFullYear tza now - JSDate.getFullYear tza t) * 12
  + (JSDate.getMonth tza now - JSDate.getMonth tza t).

(** [Math.floor((now.getTime() - txDate.getTime()) / (1000 * 60 * 60 * 24))].
    Both time values are integers below 2^53 in magnitude, so for every
    difference below 2^53 the Number computed by the source is this
    integer; beyond, both are far outside any window. *)
Definition daysDiff (t : Z) : Z := (now - t) / (1000 * 60 * 60 * 24).

(** The callback of [transactions.forEach] in the [year] branch. *)
Definition visitMonth (monthsToShow : Z) (g : GroupedData) (tx : TransactionEvent)
  : option GroupedData :=
  if falsy (timestamp tx) then Some g
  else
    match txDate tx with
    | Some t =>
        if (0 <=? monthDiff t) && (monthDiff t <? monthsToShow)
        then record (JSDate.monthShort tza t) tx g
        else Some g
    | None => Some g
    end.

(** The callback of [transactions.forEach] in the [week]/[month] branch. *)
Definition visitDay (daysToShow : Z) (g : GroupedData) (tx : TransactionEvent)
  : option GroupedData :=
  if falsy (timestamp tx) then Some g
  else
    match txDate tx with
    | Some t =>
        if (0 <=? daysDiff t) && (daysDiff t <? daysToShow)
        then record (dateFormat t) tx g
        else Some g
    | None => Some g
    end.

(** The empty buckets of the [year] branch, oldest first. *)
Definition monthSkeleton (monthsToShow : nat) : GroupedData :=
  countdown (fun i g => ensure (monthKey i) g) monthsToShow [].

(** The empty buckets of the [week]/[month] branch, oldest first. *)
Definition daySkeleton (daysToShow : nat) : GroupedData :=
  countdown (fun i g => ensure (dayKey i) g) daysToShow [].

(** The final [Object.entries(groupedData).map(...)]. *)
Definition toPoint (e : string * Group) : ChartDataPoint :=
  let '(date, data) := e in
  mkPoint date
          (JSNumber.Math_round (g_revenue data * 100) / 100)%float
          (g_count data)
          (JSNumber.Math_round (g_revenue data * 0.01 * 100) / 100)%float.

Definition getEmptyChartData (period : TimePeriod) : list ChartDataPoint :=
  let daysToShow :=
    match period with week => 7%nat | month => 30%nat | year => 12%nat end in
  countdown
    (fun i data =>
       match period with
       | year => data ++ [mkPoint (monthKey i) 0%float 0 0%float]
       | _ => data ++ [mkPoint (dayKey i) 0%float 0 0%float]
       end)
    daysToShow [].

(** The accumulated [groupedData], before the conversion to chart points. *)
Definition accumulate (transactions : list TransactionEvent) (period : TimePeriod)
  : option GroupedData :=
  match period with
  | year =>
      let monthsToShow := 12%nat in
      forEach (visitMonth (Z.of_nat monthsToShow)) transactions
              (monthSkeleton monthsToShow)
  | _ =>
      let daysToShow := match period with week => 7%nat | _ => 30%nat end in
      forEach (visitDay (Z.of_nat daysToShow)) transactions
              (daySkeleton daysToShow)
  end.

(** [None] stands for an exception escaping the function. *)
Definition generateChartData (transactions : list TransactionEvent)
           (period : TimePeriod) : option (list ChartDataPoint) :=
  match transactions with
  | [] => Some (getEmptyChartData period)
  | _ =>
      groupedData <- accumulate transactions period ;;
      Some (map toPoint groupedData)
  end.

End Chart.

(* ================================================================== *)
(** ** The overview page: the stat computation of [DashboardOverview] *)

Record OverviewStats : Type := mkStats {
  totalTransactions : Z;
  totalRevenue : float;
  successRate : Z;
  failedTransactions : Z;
  pendingTransactions : Z
}.

Definition DashboardOverview (transactions : list TransactionEvent) : OverviewStats :=
  let totalTransactions := Z.of_nat (List.length transactions) in
  let totalRevenue :=
    fold_left (fun sum tx => (sum + JSString.parseFloat (orZero (amountBC tx)))%float)
              transactions 0%float in
  let successRate := if 0 <? totalTransactions then 100 else 0 in
  let failedTransactions := 0 in
  let pendingTransactions := 0 in
  mkStats totalTransactions totalRevenue successRate
          failedTransactions pendingTransactions.

(* ================================================================== *)
(** ** Notions used to state the properties

    None of these is a function of the source: they name what the callbacks
    decide (the label a transaction is recorded under) and what a bucket has
    accumulated, so that the theorems can speak about them. *)

Section Buckets.

Variable tza : JSDate.Zone.
Variable now : Z.

(** The number of buckets a period asks for. *)
Definition bucketCount (period : TimePeriod) : nat :=
  match period with week => 7%nat | month => 30%nat | year => 12%nat end.

(** The label the [week]/[month] callback looks a transaction up with, when
    the transaction passes the timestamp test and the window test. *)
Definition dayTarget (daysToShow : Z) (tx : TransactionEvent) : option string :=
  if falsy (timestamp tx) then None
  else
    match txDate tx with
    | Some t =>
        if (0 <=? daysDiff now t) && (daysDiff now t <? daysToShow)
        then Some (dateFormat tza t) else None
    | None => None
    end.

(** The same for the [year] callback. *)
Definition monthTarget (monthsToShow : Z) (tx : TransactionEvent) : option string :=
  if falsy (timestamp tx) then None
  else
    match txDate tx with
    | Some t =>
        if (0 <=? monthDiff tza now t) && (monthDiff tza now t <? monthsToShow)
        then Some (JSDate.monthShort tza t) else None
    | None => None
    end.

Definition target (period : TimePeriod) (tx : TransactionEvent) : option string :=
  match period with
  | year => monthTarget 12 tx
  | week => dayTarget 7 tx
  | month => dayTarget 30 tx
  end.

(** Whether [tx] is looked up with the label [key]. *)
Definition hits (period : TimePeriod) (key : string) (tx : TransactionEvent) : bool :=
  match target period tx with
  | Some k => String.eqb key k
  | None => false
  end.

(** What one recorded transaction does to a group. *)
Definition hit (tx : TransactionEvent) (v : Group) : Group :=
  addCount (addRevenue tx v).

(** The group of label [key] after the transactions were visited in order,
    started from [v]. *)
Definition bucketFrom (period : TimePeriod) (key : string)
           (transactions : list TransactionEvent) (v : Group) : Group :=
  fold_left (fun v tx => if hits period key tx then hit tx v else v)
            transactions v.

Definition bucket (period : TimePeriod) (key : string)
           (transactions : list TransactionEvent) : Group :=
  bucketFrom period key transactions (mkGroup 0%float 0).

(** The empty buckets a populated run starts from. *)
Definition skeleton (period : TimePeriod) : GroupedData :=
  match period with
  | year => monthSkeleton tza now 12
  | week => daySkeleton tza now 7
  | month => daySkeleton tza now 30
  end.

(** The amount a recorded transaction adds to the revenue:
    [parseFloat(tx.amountSC || "0")]. *)
Definition amount (tx : TransactionEvent) : float :=
  JSString.parseFloat (orZero (amountSC tx)).

(** The revenue accumulated under [key], before any rounding: the amounts
    of the transactions recorded under it, added in the order of the
    list. *)
Definition rawRevenue (period : TimePeriod) (key : string)
           (transactions : list TransactionEvent) : float :=
  fold_left (fun sum tx => (sum + amount tx)%float)
            (filter (hits period key) transactions) 0%float.

(** One visited transaction, as a function on [groupedData]. *)
Definition step (period : TimePeriod) (g : GroupedData)
           (tx : TransactionEvent) : GroupedData :=
  match target period tx with
  | Some k => update k (hit tx) g
  | None => g
  end.

(** The labels of a populated run, oldest first. *)
Definition labels (period : TimePeriod) : list string :=
  map fst (skeleton period).

(** The loop indices [n - 1, ..., 0], in the order the loops visit them. *)
Fixpoint downto (n : nat) : list Z :=
  match n with
  | O => []
  | S i => Z.of_nat i :: downto i
  end.

(** Label of the local day with day number [z]. *)
Definition keyOfDay (z : Z) : string :=
  let '(_, m, d) := JSDate.civil_from_days z in
  (JSString.padStart2 (JSString.of_int d) ++ "/" ++
   JSString.padStart2 (JSString.of_int m))%string.

(** The label a period gives a date: [dateFormat] for [week] and [month],
    the short month name for [year]. *)
Definition labelOf (period : TimePeriod) (t : Z) : string :=
  match period with
  | year => JSDate.monthShort tza t
  | _ => dateFormat tza t
  end.

(** The date the skeleton loop of a period sets at index [i]:
    [setDate(getDate() - i)] on a copy of [now], and [setMonth(getMonth() - i)]
    for [year]. *)
Definition bucketDate (period : TimePeriod) (i : Z) : Z :=
  match period with
  | year => JSDate.setMonth tza now (JSDate.getMonth tza now - i)
  | _ => JSDate.setDate tza now (JSDate.getDate tza now - i)
  end.

(** Day number of the local day [now] falls on. *)
Definition today : Z := JSDate.Day (JSDate.LocalTime tza now).

(** Whether [tx] is recorded in some bucket of a populated run. *)
Definition recorded (period : TimePeriod) (tx : TransactionEvent) : bool :=
  existsb (fun k => hits period k tx) (labels period).

End Buckets.

(** The transactions counted by a series, all buckets together. *)
Definition totalCount (series : list ChartDataPoint) : Z :=
  fold_right Z.add 0 (map transactions series).

(** [p] holds of [lo], [lo + 1], ..., [lo + n - 1]. *)
Fixpoint all_from (lo : Z) (n : nat) (p : Z -> bool) : bool :=
  match n with
  | O => true
  | S k => p lo && all_from (lo + 1) k p
  end.

(** The check run over one 400-year cycle: the date of day [doe] is a
    calendar date, and [days_from_civil] takes it back to [doe]. *)
Definition doe_ok (doe : Z) : bool :=
  let '(y, m, d) := JSDate.civil_of_doe doe in
  (1 <=? m) && (m <=? 12) && (1 <=? d) && (d <=? 31)
  && (JSDate.days_from_civil y m d =? doe - JSDate.eraShift).

(** Days before year [yoe] of a cycle. *)
Definition daysBeforeYoe (yoe : Z) : Z := yoe * 365 + yoe / 4 - yoe / 100.

(** The check run over the years of a cycle: a year has at least 365 days. *)
Definition yoe_ok (yoe : Z) : bool :=
  if yoe =? 399 then daysBeforeYoe yoe + 365 <=? JSDate.daysPerEra
  else daysBeforeYoe yoe + 365 <=? daysBeforeYoe (yoe + 1).

(** [ks] without the labels already met, in the order they are first met. *)
Definition firstOccurrences (ks : list string) : list string :=
  fold_left (fun acc k =>
               if existsb (fun k' => String.eqb k' k) acc then acc
               else acc ++ [k])
            ks [].

(** The check run over the years of a cycle: the first of a month is at
    least 28 days after the first of the month before. *)
Definition month_step_ok (y : Z) : bool :=
  all_from 1 11 (fun m =>
    JSDate.days_from_civil y m 1 + 28 <=? JSDate.days_from_civil y (m + 1) 1)
  && (JSDate.days_from_civil y 12 1 + 28 <=? JSDate.days_from_civil (y + 1) 1 1).

(** The label of month [i] (0 is January). *)
Definition monthName (i : Z) : string :=
  nth (Z.to_nat i) JSDate.monthNames "".

(** The check run over the years of a cycle: the days 1 to 28 of every month
    are taken to their day number and back. *)
Definition ymd_ok (y : Z) : bool :=
  all_from 1 12 (fun m =>
    all_from 1 28 (fun d =>
      let '(y', m', d') := JSDate.civil_from_days (JSDate.days_from_civil y m d) in
      (y' =? y) && (m' =? m) && (d' =? d))).

(** Label of day [d] of month [m]. *)
Definition keyOf (d m : Z) : string :=
  (JSString.padStart2 (JSString.of_int d) ++ "/" ++
   JSString.padStart2 (JSString.of_int m))%string.

(** The check run over the calendar: distinct dates have distinct labels. *)
Definition keyOf_ok (d : Z) : bool :=
  all_from 1 12 (fun m =>
    all_from 1 31 (fun d' =>
      all_from 1 12 (fun m' =>
        implb (String.eqb (keyOf d m) (keyOf d' m')) ((d =? d') && (m =? m'))))).

(* ================================================================== *)
(** ** Sample inputs *)

Module Sample.

(** The zone of the samples. *)
Definition utc : JSDate.Zone := JSDate.fixedZone 0.

(** 2025-03-31T12:00:00Z, as a time value. *)
Definition noon_31_Mar_2025 : Z := 1743422400000.

(** A transaction at [secs] seconds since the epoch. *)
Definition tx_at (secs : float) (amount : option string) : TransactionEvent :=
  mkTx (TsNumber secs) amount None.

(** 2025-03-28T12:00:00Z, three days before [noon_31_Mar_2025]. *)
Definition noon_28_Mar : float := 1743163200%float.

(** 2025-03-24T18:00:00Z, six days and eighteen hours before
    [noon_31_Mar_2025]. *)
Definition evening_24_Mar : float := 1742839200%float.

(** 2025-03-25T06:00:00Z, six days and six hours before
    [noon_31_Mar_2025]. *)
Definition morning_25_Mar : float := 1742882400%float.

(** 2025-03-24T06:00:00Z, seven days and six hours before
    [noon_31_Mar_2025]. *)
Definition morning_24_Mar : float := 1742796000%float.

(** Three transactions of one day, in two orders. *)
Definition three_amounts : list TransactionEvent :=
  [tx_at noon_28_Mar (Some "0.005"); tx_at noon_28_Mar (Some "0.1");
   tx_at noon_28_Mar (Some "5.00")].

Definition three_amounts_swapped : list TransactionEvent :=
  [tx_at noon_28_Mar (Some "0.005"); tx_at noon_28_Mar (Some "5.00");
   tx_at noon_28_Mar (Some "0.1")].

(** A transaction of 25 March and one of 28 March, in two orders. *)
Definition two_days : list TransactionEvent :=
  [tx_at morning_25_Mar (Some "5"); tx_at noon_28_Mar (Some "0.496")].

Definition two_days_swapped : list TransactionEvent :=
  [tx_at noon_28_Mar (Some "0.496"); tx_at morning_25_Mar (Some "5")].

(** New York around the change to daylight saving time of 9 March 2025,
    02:00 local time (07:00 UTC): five hours behind UTC before it, four
    after. *)
Definition spring_forward : Z := 1741503600000.

Definition new_york : JSDate.Zone :=
  JSDate.mkZone
    (fun t => if t <? spring_forward then -18000000 else -14400000)
    (fun t => if t <? spring_forward - 14400000 then -18000000 else -14400000).

(** 2025-03-12 12:00 in New York (16:00 UTC). *)
Definition noon_12_Mar_new_york : Z := 1741795200000.

(** 2025-03-05 11:30 in New York (16:30 UTC), in seconds. *)
Definition morning_5_Mar_new_york : float := 1741192200%float.

End Sample.

(* ================================================================== *)
(** * Properties *)

(** ** [groupedData] as an association list *)

Lemma lookup_app_None key g e :
  lookup key g = None -> lookup key (g ++ [e]) = lookup key [e].
Proof.
  induction g as [|[k v] r IH]; simpl; auto.
  destruct (String.eqb k key); [discriminate | exact IH].
Qed.

Lemma lookup_None_notin key g :
  lookup key g = None <-> ~ In key (map fst g).
Proof.
  induction g as [|[k v] r IH]; simpl.
  - tauto.
  - destruct (String.eqb_spec k key) as [->|Hne].
    + split; [discriminate | tauto].
    + rewrite IH. tauto.
Qed.

Lemma keys_ensure_NoDup key g :
  NoDup (map fst g) -> NoDup (map fst (ensure key g)).
Proof.
  intros H. unfold ensure.
  destruct (lookup key g) eqn:E; auto.
  rewrite map_app. simpl.
  apply lookup_None_notin in E.
  apply NoDup_rev in H. rewrite <- (rev_involutive (map fst g ++ [key])).
  apply NoDup_rev. rewrite rev_app_distr. simpl.
  constructor; [rewrite <- in_rev; exact E | exact H].
Qed.

Lemma ensure_fresh key g :
  ~ In key (map fst g) -> ensure key g = g ++ [(key, mkGroup 0%float 0)].
Proof.
  intros H. unfold ensure. apply lookup_None_notin in H. now rewrite H.
Qed.

Lemma update_absent key f g :
  lookup key g = None -> update key f g = g.
Proof.
  induction g as [|[k v] r IH]; simpl; auto.
  destruct (String.eqb k key); [discriminate|].
  intros H. now rewrite IH.
Qed.

Lemma lookup_update_same key f g v :
  lookup key g = Some v -> lookup key (update key f g) = Some (f v).
Proof.
  induction g as [|[k w] r IH]; simpl; [discriminate|].
  destruct (String.eqb k key) eqn:E; simpl; rewrite E.
  - now intros [= ->].
  - exact IH.
Qed.

Lemma update_update key f h g :
  update key h (update key f g) = update key (fun v => h (f v)) g.
Proof.
  induction g as [|[k w] r IH]; simpl; auto.
  destruct (String.eqb k key) eqn:E; simpl; rewrite E; [reflexivity|].
  now rewrite IH.
Qed.

(** With distinct keys, [update] is a map over the entries. *)
Lemma update_as_map key f g :
  NoDup (map fst g) ->
  update key f g =
  map (fun e => (fst e, if String.eqb (fst e) key then f (snd e) else snd e)) g.
Proof.
  induction g as [|[k w] r IH]; simpl; auto.
  intros H. inversion H as [|? ? Hk Hr]; subst.
  destruct (String.eqb_spec k key) as [->|Hne].
  - f_equal. rewrite <- (update_absent key f r) at 1.
    + now apply IH.
    + now apply lookup_None_notin.
  - f_equal. now apply IH.
Qed.

(** The guarded update never throws: it is [update], which leaves a
    [groupedData] without the key as it is. *)
Lemma record_update key tx g :
  record key tx g = Some (update key (hit tx) g).
Proof.
  unfold record, modify, bind.
  destruct (lookup key g) as [v|] eqn:E.
  - rewrite (lookup_update_same key (addRevenue tx) g v E).
    now rewrite update_update.
  - now rewrite update_absent.
Qed.

(** ** The loops *)

Lemma countdown_fold {S : Type} (body : Z -> S -> S) n s :
  countdown body n s = fold_left (fun s i => body i s) (downto n) s.
Proof.
  revert s. induction n as [|n IH]; intros s; simpl; auto.
Qed.

Lemma downto_length n : List.length (downto n) = n.
Proof. induction n; simpl; auto. Qed.

Lemma downto_In n i : In i (downto n) <-> 0 <= i < Z.of_nat n.
Proof.
  induction n as [|n IH]; simpl.
  - lia.
  - rewrite IH. lia.
Qed.

Lemma forEach_total {A S : Type} (f : S -> A -> option S) (step : S -> A -> S) l s :
  (forall s a, f s a = Some (step s a)) ->
  forEach f l s = Some (fold_left step l s).
Proof.
  intros Hf. revert s. induction l as [|a r IH]; intros s; simpl; auto.
  rewrite Hf. simpl. apply IH.
Qed.

(** The skeleton loops from any starting object: keys stay distinct, and
    with pairwise distinct labels every iteration appends one empty group. *)
Lemma ensure_loop_NoDup (key : Z -> string) l g :
  NoDup (map fst g) ->
  NoDup (map fst (fold_left (fun g i => ensure (key i) g) l g)).
Proof.
  revert g. induction l as [|i r IH]; intros g H; simpl; auto.
  apply IH. now apply keys_ensure_NoDup.
Qed.

Lemma ensure_loop_zero (key : Z -> string) l g :
  Forall (fun e => snd e = mkGroup 0%float 0) g ->
  Forall (fun e => snd e = mkGroup 0%float 0)
         (fold_left (fun g i => ensure (key i) g) l g).
Proof.
  revert g. induction l as [|i r IH]; intros g H; simpl; auto.
  apply IH. unfold ensure. destruct (lookup (key i) g); auto.
  apply Forall_app. split; auto.
Qed.

Lemma ensure_loop_fresh (key : Z -> string) l g :
  NoDup (map key l) ->
  (forall i, In i l -> ~ In (key i) (map fst g)) ->
  fold_left (fun g i => ensure (key i) g) l g =
  g ++ map (fun i => (key i, mkGroup 0%float 0)) l.
Proof.
  revert g. induction l as [|i r IH]; intros g Hnd Hfresh; simpl.
  - now rewrite app_nil_r.
  - inversion Hnd as [|? ? Hi Hr]; subst.
    rewrite ensure_fresh by (apply Hfresh; now left).
    rewrite IH; auto.
    + now rewrite <- app_assoc.
    + intros j Hj. rewrite map_app, in_app_iff. simpl.
      intros [H|[H|[]]].
      * apply (Hfresh j); [now right | exact H].
      * apply Hi. rewrite H. now apply in_map.
Qed.

Lemma push_loop {A : Type} (f : Z -> A) l acc :
  fold_left (fun data i => data ++ [f i]) l acc = acc ++ map f l.
Proof.
  revert acc. induction l as [|i r IH]; intros acc; simpl.
  - now rewrite app_nil_r.
  - rewrite IH. now rewrite <- app_assoc.
Qed.

(** ** The callbacks *)

Lemma visitDay_step tza now w g tx :
  visitDay tza now w g tx =
  Some (match dayTarget tza now w tx with
        | Some k => update k (hit tx) g
        | None => g
        end).
Proof.
  unfold visitDay, dayTarget.
  destruct (falsy (timestamp tx)); auto.
  destruct (txDate tx) as [t|]; auto.
  destruct ((0 <=? daysDiff now t) && (daysDiff now t <? w)); auto.
  apply record_update.
Qed.

Lemma visitMonth_step tza now w g tx :
  visitMonth tza now w g tx =
  Some (match monthTarget tza now w tx with
        | Some k => update k (hit tx) g
        | None => g
        end).
Proof.
  unfold visitMonth, monthTarget.
  destruct (falsy (timestamp tx)); auto.
  destruct (txDate tx) as [t|]; auto.
  destruct ((0 <=? monthDiff tza now t) && (monthDiff tza now t <? w)); auto.
  apply record_update.
Qed.

Lemma accumulate_fold tza now transactions period :
  accumulate tza now transactions period =
  Some (fold_left (step tza now period) transactions (skeleton tza now period)).
Proof.
  unfold accumulate, skeleton.
  destruct period; simpl Z.of_nat.
  - apply forEach_total. intros. apply visitDay_step.
  - apply forEach_total. intros. apply visitDay_step.
  - apply forEach_total. intros. apply visitMonth_step.
Qed.

Lemma step_keys tza now period g tx :
  map fst (step tza now period g tx) = map fst g.
Proof.
  unfold step. destruct (target tza now period tx) as [k|]; auto.
  induction g as [|[k' v] r IH]; simpl; auto.
  destruct (String.eqb k' k); simpl; [reflexivity | now rewrite IH].
Qed.

Lemma step_as_map tza now period g tx :
  NoDup (map fst g) ->
  step tza now period g tx =
  map (fun e => (fst e, if hits tza now period (fst e) tx
                        then hit tx (snd e) else snd e)) g.
Proof.
  intros H. unfold step, hits.
  destruct (target tza now period tx) as [k|].
  - now apply update_as_map.
  - rewrite <- (map_id g) at 1. apply map_ext. now intros [k v].
Qed.

(** Every entry the visits started from ends as the fold of the
    transactions that hit its label. *)
Lemma fold_step_as_map tza now period transactions g :
  NoDup (map fst g) ->
  fold_left (step tza now period) transactions g =
  map (fun e => (fst e, bucketFrom tza now period (fst e) transactions (snd e))) g.
Proof.
  revert g. induction transactions as [|tx r IH]; intros g H; simpl.
  - rewrite <- (map_id g) at 1. apply map_ext. now intros [k v].
  - rewrite IH by (now rewrite step_keys).
    rewrite step_as_map by exact H.
    rewrite map_map. apply map_ext. now intros [k v].
Qed.

Lemma skeleton_NoDup tza now period : NoDup (map fst (skeleton tza now period)).
Proof.
  unfold skeleton, monthSkeleton, daySkeleton.
  destruct period; rewrite countdown_fold; apply ensure_loop_NoDup; constructor.
Qed.

Lemma skeleton_zero tza now period :
  Forall (fun e => snd e = mkGroup 0%float 0) (skeleton tza now period).
Proof.
  unfold skeleton, monthSkeleton, daySkeleton.
  destruct period; rewrite countdown_fold; apply ensure_loop_zero; constructor.
Qed.

(** The accumulated object: the skeleton's labels in the skeleton's order,
    each with the fold of the transactions that hit it. *)
Lemma accumulate_spec tza now transactions period :
  accumulate tza now transactions period =
  Some (map (fun k => (k, bucket tza now period k transactions))
            (labels tza now period)).
Proof.
  rewrite accumulate_fold.
  rewrite fold_step_as_map by apply skeleton_NoDup.
  f_equal. unfold labels. rewrite map_map.
  pose proof (skeleton_zero tza now period) as Hz.
  induction Hz as [|[k v] r Hv _ IH]; simpl; auto.
  simpl in Hv. subst v. now rewrite IH.
Qed.

(** What a populated run returns. *)
Lemma generateChartData_spec tza now transactions period :
  transactions <> [] ->
  generateChartData tza now transactions period =
  Some (map (fun k => toPoint (k, bucket tza now period k transactions))
            (labels tza now period)).
Proof.
  intros Hne. unfold generateChartData.
  destruct transactions as [|tx r]; [congruence|].
  rewrite accumulate_spec. simpl. now rewrite map_map.
Qed.

(** ** The calendar *)

Lemma all_from_spec n : forall lo p,
  all_from lo n p = true -> forall z, lo <= z < lo + Z.of_nat n -> p z = true.
Proof.
  induction n as [|n IH]; intros lo p H z Hz.
  - lia.
  - simpl in H. apply andb_true_iff in H. destruct H as [H0 H1].
    destruct (Z.eq_dec z lo) as [->|Hne]; auto.
    apply (IH (lo + 1) p H1). lia.
Qed.

Lemma doe_ok_cycle : all_from 0 (Z.to_nat 146097) doe_ok = true.
Proof. vm_cast_no_check (eq_refl true). Qed.

Lemma yoe_ok_cycle : all_from 0 400 yoe_ok = true.
Proof. vm_compute. reflexivity. Qed.

Lemma keyOf_ok_calendar : all_from 1 31 keyOf_ok = true.
Proof. vm_cast_no_check (eq_refl true). Qed.

Lemma civil_of_doe_spec doe y m d :
  0 <= doe < JSDate.daysPerEra ->
  JSDate.civil_of_doe doe = (y, m, d) ->
  1 <= m <= 12 /\ 1 <= d <= 31 /\
  JSDate.days_from_civil y m d = doe - JSDate.eraShift.
Proof.
  intros Hr E.
  assert (H : doe_ok doe = true).
  { apply (all_from_spec _ _ _ doe_ok_cycle).
    unfold JSDate.daysPerEra in Hr. lia. }
  unfold doe_ok in H. rewrite E in H.
  repeat (apply andb_true_iff in H; destruct H as [H ?]).
  lia.
Qed.

(** Both conversions repeat every 400 years. *)
Lemma days_from_civil_era y m d e :
  JSDate.days_from_civil (y + e * 400) m d =
  JSDate.days_from_civil y m d + e * JSDate.daysPerEra.
Proof.
  unfold JSDate.days_from_civil.
  replace (if m <=? 2 then y + e * 400 - 1 else y + e * 400)
    with ((if m <=? 2 then y - 1 else y) + e * 400)
    by (destruct (m <=? 2); lia).
  rewrite Z.div_add, Z.mod_add by lia. lia.
Qed.

(** [days_from_civil] inverts [civil_from_days], whose months and days are
    those of the calendar. *)
Lemma civil_from_days_spec z y m d :
  JSDate.civil_from_days z = (y, m, d) ->
  1 <= m <= 12 /\ 1 <= d <= 31 /\ JSDate.days_from_civil y m d = z.
Proof.
  unfold JSDate.civil_from_days.
  destruct (JSDate.civil_of_doe ((z + JSDate.eraShift) mod JSDate.daysPerEra))
    as [[y0 m0] d0] eqn:E.
  intros [= <- <- <-].
  assert (Hr : 0 <= (z + JSDate.eraShift) mod JSDate.daysPerEra < JSDate.daysPerEra)
    by (apply Z.mod_pos_bound; reflexivity).
  destruct (civil_of_doe_spec _ _ _ _ Hr E) as (Hm & Hd & Hz).
  repeat split; try lia.
  rewrite days_from_civil_era, Hz.
  pose proof (Z.div_mod (z + JSDate.eraShift) JSDate.daysPerEra) as Hdm.
  unfold JSDate.daysPerEra in *. lia.
Qed.

Lemma days_from_civil_day y m d :
  JSDate.days_from_civil y m d = JSDate.days_from_civil y m 1 + d - 1.
Proof. unfold JSDate.days_from_civil. lia. Qed.

Lemma yoe_step yoe :
  0 <= yoe < 400 ->
  (yoe = 399 -> daysBeforeYoe yoe + 365 <= JSDate.daysPerEra) /\
  (yoe <> 399 -> daysBeforeYoe yoe + 365 <= daysBeforeYoe (yoe + 1)).
Proof.
  intros Hr.
  assert (H : yoe_ok yoe = true)
    by (apply (all_from_spec _ _ _ yoe_ok_cycle); simpl; lia).
  unfold yoe_ok in H.
  destruct (Z.eqb_spec yoe 399); apply Z.leb_le in H; split; intros; lia.
Qed.

(** The same date one year later is at least 365 days later. *)
Lemma days_from_civil_next_year y m d :
  JSDate.days_from_civil y m d + 365 <= JSDate.days_from_civil (y + 1) m d.
Proof.
  unfold JSDate.days_from_civil.
  set (y' := if m <=? 2 then y - 1 else y).
  replace (if m <=? 2 then y + 1 - 1 else y + 1) with (y' + 1)
    by (unfold y'; destruct (m <=? 2); lia).
  assert (Hr : 0 <= y' mod 400 < 400) by (apply Z.mod_pos_bound; lia).
  destruct (yoe_step _ Hr) as [H399 Hlt].
  pose proof (Z.div_mod y' 400 ltac:(lia)) as Hy.
  fold (daysBeforeYoe (y' mod 400)).
  fold (daysBeforeYoe ((y' + 1) mod 400)).
  destruct (Z.eq_dec (y' mod 400) 399) as [E|E].
  - assert (Hq : (y' + 1) / 400 = y' / 400 + 1)
      by (symmetry; apply (Z.div_unique _ _ _ 0); lia).
    assert (Hm : (y' + 1) mod 400 = 0)
      by (symmetry; apply (Z.mod_unique _ _ (y' / 400 + 1)); lia).
    rewrite Hq, Hm. specialize (H399 E).
    unfold daysBeforeYoe at 2. simpl. lia.
  - assert (Hq : (y' + 1) / 400 = y' / 400)
      by (symmetry; apply (Z.div_unique _ _ _ (y' mod 400 + 1)); lia).
    assert (Hm : (y' + 1) mod 400 = y' mod 400 + 1)
      by (symmetry; apply (Z.mod_unique _ _ (y' / 400)); lia).
    rewrite Hq, Hm. specialize (Hlt E). lia.
Qed.

Lemma days_from_civil_later_year y m d k :
  0 < k ->
  JSDate.days_from_civil y m d + 365 <= JSDate.days_from_civil (y + k) m d.
Proof.
  intros Hk. replace k with (Z.succ (k - 1)) by lia.
  assert (H0 : 0 <= k - 1) by lia. revert H0.
  generalize (k - 1). clear k Hk.
  apply natlike_ind.
  - apply days_from_civil_next_year.
  - intros x Hx IH.
    pose proof (days_from_civil_next_year (y + Z.succ x) m d) as Hs.
    replace (y + Z.succ (Z.succ x)) with (y + Z.succ x + 1) by lia.
    lia.
Qed.

(** Two days that show the same day and month are the same day or at
    least 365 days apart. *)
Lemma same_day_and_month_far z1 z2 y1 y2 m d :
  JSDate.civil_from_days z1 = (y1, m, d) ->
  JSDate.civil_from_days z2 = (y2, m, d) ->
  z1 < z2 -> z1 + 365 <= z2.
Proof.
  intros E1 E2 Hlt.
  destruct (civil_from_days_spec _ _ _ _ E1) as (_ & _ & H1).
  destruct (civil_from_days_spec _ _ _ _ E2) as (_ & _ & H2).
  destruct (Z.lt_trichotomy y1 y2) as [H|[H|H]].
  - pose proof (days_from_civil_later_year y1 m d (y2 - y1) ltac:(lia)) as Hk.
    replace (y1 + (y2 - y1)) with y2 in Hk by lia. lia.
  - subst. lia.
  - pose proof (days_from_civil_later_year y2 m d (y1 - y2) ltac:(lia)) as Hk.
    replace (y2 + (y1 - y2)) with y1 in Hk by lia. lia.
Qed.

Lemma keyOf_inj d m d' m' :
  1 <= d <= 31 -> 1 <= m <= 12 -> 1 <= d' <= 31 -> 1 <= m' <= 12 ->
  keyOf d m = keyOf d' m' -> d = d' /\ m = m'.
Proof.
  intros Hd Hm Hd' Hm' E.
  pose proof (all_from_spec _ _ _ keyOf_ok_calendar d ltac:(simpl; lia)) as H.
  unfold keyOf_ok in H.
  pose proof (all_from_spec _ _ _ H m ltac:(simpl; lia)) as H1. cbv beta in H1.
  pose proof (all_from_spec _ _ _ H1 d' ltac:(simpl; lia)) as H2. cbv beta in H2.
  pose proof (all_from_spec _ _ _ H2 m' ltac:(simpl; lia)) as H3. cbv beta in H3.
  rewrite E, String.eqb_refl in H3. simpl in H3.
  apply andb_true_iff in H3. lia.
Qed.

(** Within a year, distinct days have distinct labels. *)
Lemma keyOfDay_inj z1 z2 :
  keyOfDay z1 = keyOfDay z2 -> Z.abs (z1 - z2) < 365 -> z1 = z2.
Proof.
  unfold keyOfDay.
  destruct (JSDate.civil_from_days z1) as [[y1 m1] d1] eqn:E1.
  destruct (JSDate.civil_from_days z2) as [[y2 m2] d2] eqn:E2.
  intros Hk Hd.
  destruct (civil_from_days_spec _ _ _ _ E1) as (Hm1 & Hd1 & _).
  destruct (civil_from_days_spec _ _ _ _ E2) as (Hm2 & Hd2 & _).
  destruct (keyOf_inj d1 m1 d2 m2 Hd1 Hm1 Hd2 Hm2 Hk) as [-> ->].
  destruct (Z.lt_trichotomy z1 z2) as [H|[H|H]]; auto.
  - pose proof (same_day_and_month_far _ _ _ _ _ _ E1 E2 H). lia.
  - pose proof (same_day_and_month_far _ _ _ _ _ _ E2 E1 H). lia.
Qed.

(** ** The labels of the daily periods *)

Lemma dateFormat_keyOfDay tza t :
  dateFormat tza t = keyOfDay (JSDate.Day (JSDate.LocalTime tza t)).
Proof.
  unfold dateFormat, keyOfDay, JSDate.getDate, JSDate.getMonth,
    JSDate.DateFromTime, JSDate.MonthFromTime.
  destruct (JSDate.civil_from_days (JSDate.Day (JSDate.LocalTime tza t)))
    as [[y m] d].
  now replace (m - 1 + 1) with m by lia.
Qed.

Lemma Day_MakeDate day time :
  0 <= time < JSDate.msPerDay -> JSDate.Day (JSDate.MakeDate day time) = day.
Proof.
  intros H. unfold JSDate.Day, JSDate.MakeDate.
  rewrite Z.div_add_l by (unfold JSDate.msPerDay; lia).
  rewrite Z.div_small by exact H. lia.
Qed.

Lemma fixed_fixedZone c : JSDate.fixed (JSDate.fixedZone c) c.
Proof. intros t. split; reflexivity. Qed.

Lemma LocalTime_fixed tza c t :
  JSDate.fixed tza c -> JSDate.LocalTime tza t = t + c.
Proof. intros Hz. unfold JSDate.LocalTime. now rewrite (proj1 (Hz t)). Qed.

Lemma UTC_fixed tza c t :
  JSDate.fixed tza c -> JSDate.UTC tza t = t - c.
Proof. intros Hz. unfold JSDate.UTC. now rewrite (proj2 (Hz t)). Qed.

(** In a zone with a fixed offset, [setDate(getDate() - i)] lands on the
    local day [i] days back. *)
Lemma setDate_back tza c now i :
  JSDate.fixed tza c ->
  JSDate.Day (JSDate.LocalTime tza
                (JSDate.setDate tza now (JSDate.getDate tza now - i))) =
  today tza now - i.
Proof.
  intros Hz.
  unfold JSDate.setDate, today, JSDate.getDate.
  set (lt := JSDate.LocalTime tza now).
  rewrite (LocalTime_fixed tza c _ Hz), (UTC_fixed tza c _ Hz).
  replace (JSDate.MakeDate
             (JSDate.MakeDay (JSDate.YearFromTime lt) (JSDate.MonthFromTime lt)
                             (JSDate.DateFromTime lt - i))
             (JSDate.TimeWithinDay lt) - c + c)
    with (JSDate.MakeDate
            (JSDate.MakeDay (JSDate.YearFromTime lt) (JSDate.MonthFromTime lt)
                            (JSDate.DateFromTime lt - i))
            (JSDate.TimeWithinDay lt)) by lia.
  rewrite Day_MakeDate
    by (apply Z.mod_pos_bound; reflexivity).
  unfold JSDate.MakeDay, JSDate.YearFromTime, JSDate.MonthFromTime,
    JSDate.DateFromTime.
  destruct (JSDate.civil_from_days (JSDate.Day lt)) as [[y m] d] eqn:E.
  destruct (civil_from_days_spec _ _ _ _ E) as (Hm & Hd & Hday).
  rewrite (Z.div_small (m - 1) 12), (Z.mod_small (m - 1) 12) by lia.
  rewrite (days_from_civil_day y m d) in Hday.
  replace (m - 1 + 1) with m by lia. rewrite Z.add_0_r. lia.
Qed.

Lemma dayKey_keyOfDay tza c now i :
  JSDate.fixed tza c ->
  dayKey tza now i = keyOfDay (today tza now - i).
Proof.
  intros Hz. unfold dayKey.
  now rewrite dateFormat_keyOfDay, (setDate_back tza c now i Hz).
Qed.

Lemma NoDup_map_on {A B : Type} (f : A -> B) l :
  (forall x y, In x l -> In y l -> f x = f y -> x = y) ->
  NoDup l -> NoDup (map f l).
Proof.
  intros Hinj H. induction H as [|a r Ha Hr IH]; simpl; constructor.
  - rewrite in_map_iff. intros (b & Hb & Hin).
    apply Ha. rewrite <- (Hinj b a); auto; [now right | now left].
  - apply IH. intros x y Hx Hy. apply Hinj; now right.
Qed.

Lemma downto_NoDup n : NoDup (downto n).
Proof.
  induction n as [|n IH]; simpl; constructor; auto.
  rewrite downto_In. lia.
Qed.

(** The labels of up to 365 consecutive days are pairwise distinct. *)
Lemma dayKey_NoDup tza c now n :
  JSDate.fixed tza c ->
  (n <= 365)%nat -> NoDup (map (dayKey tza now) (downto n)).
Proof.
  intros Hz Hn. apply NoDup_map_on; [|apply downto_NoDup].
  intros i j Hi Hj E. apply downto_In in Hi, Hj.
  rewrite !(dayKey_keyOfDay tza c now _ Hz) in E.
  apply keyOfDay_inj in E; lia.
Qed.

Lemma daySkeleton_spec tza c now n :
  JSDate.fixed tza c ->
  (n <= 365)%nat ->
  daySkeleton tza now n =
  map (fun i => (dayKey tza now i, mkGroup 0%float 0)) (downto n).
Proof.
  intros Hz Hn. unfold daySkeleton. rewrite countdown_fold.
  rewrite (ensure_loop_fresh (dayKey tza now)); auto.
  now apply (dayKey_NoDup tza c).
Qed.

Lemma daySkeleton_keys tza c now n :
  JSDate.fixed tza c ->
  (n <= 365)%nat ->
  map fst (daySkeleton tza now n) = map (dayKey tza now) (downto n).
Proof.
  intros Hz Hn. rewrite (daySkeleton_spec tza c now n Hz Hn).
  rewrite map_map. reflexivity.
Qed.

Lemma getEmptyChartData_spec tza now period :
  getEmptyChartData tza now period =
  map (fun i => mkPoint (match period with
                         | year => monthKey tza now i
                         | _ => dayKey tza now i
                         end) 0%float 0 0%float)
      (downto (bucketCount period)).
Proof.
  unfold getEmptyChartData. rewrite countdown_fold.
  destruct period; simpl bucketCount; apply (push_loop _ _ []).
Qed.

(* ================================================================== *)
(** ** Cardinality of the series *)

(** The placeholder series has 7, 30 or 12 points, whatever [now] is. *)
Lemma getEmptyChartData_length tza now period :
  List.length (getEmptyChartData tza now period) = bucketCount period.
Proof.
  rewrite getEmptyChartData_spec. now rewrite length_map, downto_length.
Qed.

Lemma labels_daily tza c now period :
  JSDate.fixed tza c ->
  period <> year ->
  labels tza now period = map (dayKey tza now) (downto (bucketCount period)).
Proof.
  intros Hz Hp. unfold labels, skeleton.
  destruct period; try congruence; simpl bucketCount;
    apply (daySkeleton_keys tza c); auto; lia.
Qed.

(** In a zone with a fixed offset a populated [week] or [month] run has 7
    or 30 points, whatever [now] and the transactions are. *)
Lemma generateChartData_daily_length tza c now transactions period :
  JSDate.fixed tza c ->
  period <> year -> transactions <> [] ->
  exists series,
    generateChartData tza now transactions period = Some series /\
    List.length series = bucketCount period.
Proof.
  intros Hz Hp Hne. rewrite generateChartData_spec by exact Hne.
  eexists. split; [reflexivity|].
  now rewrite length_map, (labels_daily tza c now period Hz Hp),
    length_map, downto_length.
Qed.

(** C1, on the code: at noon of 31 March 2025 (UTC) a populated [year] run
    returns 7 buckets, not 12. [setMonth] keeps the day of the month, so the
    31st of a 30-day month (and of February) runs into the next month, whose
    label is then met twice and kept once. *)
Theorem year_series_on_31_March :
  option_map (map date)
    (generateChartData Sample.utc Sample.noon_31_Mar_2025
       [Sample.tx_at Sample.noon_28_Mar (Some "25.00")] year)
  = Some ["May"; "Jul"; "Aug"; "Oct"; "Dec"; "Jan"; "Mar"]
  /\
  option_map (@List.length ChartDataPoint)
    (generateChartData Sample.utc Sample.noon_31_Mar_2025
       [Sample.tx_at Sample.noon_28_Mar (Some "25.00")] year)
  = Some 7%nat.
Proof. split; vm_compute; reflexivity. Qed.

(* ================================================================== *)
(** ** The empty event list *)

(** Every point of the placeholder series is zero. *)
Lemma getEmptyChartData_zero tza now period :
  Forall (fun p => revenue p = 0%float /\ transactions p = 0 /\ fees p = 0%float)
         (getEmptyChartData tza now period).
Proof.
  rewrite getEmptyChartData_spec. apply Forall_map, Forall_forall.
  intros i _. now simpl.
Qed.

(** For [week] and [month], in a zone with a fixed offset, the placeholder
    series carries the labels of a populated run. *)
Lemma getEmptyChartData_daily_labels tza c now period :
  JSDate.fixed tza c ->
  period <> year ->
  map date (getEmptyChartData tza now period) = labels tza now period.
Proof.
  intros Hz Hp.
  rewrite getEmptyChartData_spec, (labels_daily tza c now period Hz Hp).
  rewrite map_map. apply map_ext. intros i.
  destruct period; simpl; congruence.
Qed.

(** C7, on the code: at noon of 31 March 2025 (UTC) the empty event list
    gives a [year] series of 12 points whose labels repeat, while a
    populated run for the same instant has 7 points: the two series differ
    in length and in labels. *)
Theorem empty_year_series_on_31_March :
  option_map (map date)
    (generateChartData Sample.utc Sample.noon_31_Mar_2025 [] year)
  = Some ["May"; "May"; "Jul"; "Jul"; "Aug"; "Oct";
          "Oct"; "Dec"; "Dec"; "Jan"; "Mar"; "Mar"]
  /\
  option_map (map date)
    (generateChartData Sample.utc Sample.noon_31_Mar_2025
       [Sample.tx_at Sample.noon_28_Mar (Some "25.00")] year)
  = Some (labels Sample.utc Sample.noon_31_Mar_2025 year)
  /\
  labels Sample.utc Sample.noon_31_Mar_2025 year
  = ["May"; "Jul"; "Aug"; "Oct"; "Dec"; "Jan"; "Mar"].
Proof. repeat split; vm_compute; reflexivity. Qed.

(* ================================================================== *)
(** ** Amounts *)

(** An absent or empty amount adds zero and counts the transaction. *)
Lemma hit_without_amount tx v :
  amountSC tx = None \/ amountSC tx = Some "" ->
  hit tx v = mkGroup (g_revenue v + 0)%float (g_count v + 1).
Proof.
  intros [E|E]; unfold hit, addCount, addRevenue; rewrite E; reflexivity.
Qed.

(** C2, on the code: a transaction inside the window whose amount is the
    string "abc" is counted, and turns the revenue and the fees of its
    bucket into NaN instead of adding zero. *)
Theorem unparseable_amount_on_28_March :
  generateChartData Sample.utc Sample.noon_31_Mar_2025
    [Sample.tx_at Sample.noon_28_Mar (Some "abc")] week
  = Some [mkPoint "25/03" 0 0 0; mkPoint "26/03" 0 0 0; mkPoint "27/03" 0 0 0;
          mkPoint "28/03" nan 1 nan;
          mkPoint "29/03" 0 0 0; mkPoint "30/03" 0 0 0; mkPoint "31/03" 0 0 0].
Proof. vm_compute. reflexivity. Qed.

(* ================================================================== *)
(** ** Totality *)

(** C8: for every zone, instant, event list and period the aggregation
    returns a series; no exception escapes it. A transaction without a
    timestamp, with a timestamp that gives no valid date, or with a date
    outside the window is passed over by the callbacks, which return the
    accumulated data as they were. *)
Theorem generateChartData_total tza now transactions period :
  (exists series, generateChartData tza now transactions period = Some series) /\
  (forall w g tx,
      timestamp tx = TsAbsent \/ txDate tx = None ->
      visitDay tza now w g tx = Some g /\ visitMonth tza now w g tx = Some g) /\
  (forall w g tx t,
      txDate tx = Some t ->
      (daysDiff now t < 0 \/ w <= daysDiff now t -> visitDay tza now w g tx = Some g) /\
      (monthDiff tza now t < 0 \/ w <= monthDiff tza now t ->
       visitMonth tza now w g tx = Some g)).
Proof.
  split; [|split].
  - destruct transactions as [|tx r].
    + eexists. reflexivity.
    + rewrite generateChartData_spec by discriminate. eexists. reflexivity.
  - intros w g tx [E|E]; unfold visitDay, visitMonth; rewrite E.
    + split; reflexivity.
    + destruct (falsy (timestamp tx)); split; reflexivity.
  - intros w g tx t Ht. unfold visitDay, visitMonth. rewrite Ht.
    destruct (falsy (timestamp tx)); [split; reflexivity|].
    split; intros H.
    + replace ((0 <=? daysDiff now t) && (daysDiff now t <? w)) with false;
        [reflexivity|].
      symmetry. apply andb_false_iff.
      destruct H; [left; apply Z.leb_gt | right; apply Z.ltb_ge]; lia.
    + replace ((0 <=? monthDiff tza now t) && (monthDiff tza now t <? w)) with false;
        [reflexivity|].
      symmetry. apply andb_false_iff.
      destruct H; [left; apply Z.leb_gt | right; apply Z.ltb_ge]; lia.
Qed.

(* ================================================================== *)
(** ** The overview statistics *)

(** C9: the success rate is 100 for a non-empty list and 0 for the empty
    one, and the failed and pending counts are 0, whatever the transactions
    hold. *)
Theorem DashboardOverview_rates transactions :
  successRate (DashboardOverview transactions)
  = match transactions with [] => 0 | _ :: _ => 100 end
  /\ failedTransactions (DashboardOverview transactions) = 0
  /\ pendingTransactions (DashboardOverview transactions) = 0.
Proof.
  destruct transactions as [|tx r]; repeat split.
Qed.

(* ================================================================== *)
(** ** Falsy timestamps *)

Lemma fold_step_skip tza now period tx l1 l2 g :
  target tza now period tx = None ->
  fold_left (step tza now period) (l1 ++ tx :: l2) g =
  fold_left (step tza now period) (l1 ++ l2) g.
Proof.
  intros E. rewrite !fold_left_app. simpl. unfold step at 2. now rewrite E.
Qed.

(** C10: a transaction whose timestamp is the number 0 or the empty string
    is left out by both callbacks before any date is computed, for every
    [now], and the accumulated data are those of the list without it. *)
Theorem falsy_timestamp_excluded tza now tx :
  timestamp tx = TsNumber 0%float \/ timestamp tx = TsString "" ->
  (forall w g, visitDay tza now w g tx = Some g) /\
  (forall w g, visitMonth tza now w g tx = Some g) /\
  (forall period l1 l2,
      accumulate tza now (l1 ++ tx :: l2) period =
      accumulate tza now (l1 ++ l2) period).
Proof.
  intros H.
  assert (Hf : falsy (timestamp tx) = true) by (destruct H as [-> | ->]; reflexivity).
  repeat split.
  - intros w g. unfold visitDay. now rewrite Hf.
  - intros w g. unfold visitMonth. now rewrite Hf.
  - intros period l1 l2. rewrite !accumulate_fold. f_equal.
    apply fold_step_skip.
    destruct period; simpl; unfold dayTarget, monthTarget; now rewrite Hf.
Qed.

(** One second after the epoch the instant 0 is inside every window, and the
    transaction stamped 0 is left out all the same. *)
Lemma falsy_timestamp_excluded_at_epoch :
  daysDiff 1000 0 = 0 /\
  monthDiff Sample.utc 1000 0 = 0 /\
  (forall w g, visitDay Sample.utc 1000 w g (mkTx (TsNumber 0%float) (Some "5") None) = Some g) /\
  (forall w g, visitMonth Sample.utc 1000 w g (mkTx (TsNumber 0%float) (Some "5") None) = Some g) /\
  (forall period l1 l2,
      accumulate Sample.utc 1000 (l1 ++ mkTx (TsNumber 0%float) (Some "5") None :: l2) period =
      accumulate Sample.utc 1000 (l1 ++ l2) period).
Proof.
  split; [reflexivity|]. split; [reflexivity|].
  apply (falsy_timestamp_excluded Sample.utc 1000 (mkTx (TsNumber 0%float) (Some "5") None)).
  left. reflexivity.
Defined.

(* ================================================================== *)
(** ** What a bucket holds *)

Lemma bucketFrom_filter tza now period key l v :
  bucketFrom tza now period key l v =
  fold_left (fun v tx => hit tx v) (filter (hits tza now period key) l) v.
Proof.
  unfold bucketFrom. revert v.
  induction l as [|tx r IH]; intros v; simpl; auto.
  destruct (hits tza now period key tx); simpl; apply IH.
Qed.

Lemma fold_hit_revenue l v :
  g_revenue (fold_left (fun v tx => hit tx v) l v) =
  fold_left (fun sum tx => (sum + amount tx)%float) l (g_revenue v).
Proof.
  revert v. induction l as [|tx r IH]; intros v; simpl; auto.
Qed.

Lemma fold_hit_count l v :
  g_count (fold_left (fun v tx => hit tx v) l v) =
  g_count v + Z.of_nat (List.length l).
Proof.
  revert v. induction l as [|tx r IH]; intros v.
  - simpl. lia.
  - simpl fold_left. rewrite IH. simpl g_count. simpl List.length. lia.
Qed.

Lemma bucket_revenue tza now period key l :
  g_revenue (bucket tza now period key l) = rawRevenue tza now period key l.
Proof.
  unfold bucket, rawRevenue. now rewrite bucketFrom_filter, fold_hit_revenue.
Qed.

Lemma bucket_count tza now period key l :
  g_count (bucket tza now period key l) =
  Z.of_nat (List.length (filter (hits tza now period key) l)).
Proof.
  unfold bucket. now rewrite bucketFrom_filter, fold_hit_count.
Qed.

Lemma float_neq (x y : float) :
  PrimFloat.eqb x y = false -> JSNumber.isNaN x = false -> x <> y.
Proof.
  unfold JSNumber.isNaN. intros H N E. subst y.
  rewrite H in N. discriminate.
Qed.

(* ================================================================== *)
(** ** Fees *)

(** C3, as the code has it: for every bucket of the output, the revenue is
    the accumulated (unrounded) sum of the amounts recorded under the
    bucket's label, rounded to two decimals, and the fees are 1% of that
    same unrounded sum, rounded to two decimals. *)
Theorem fees_from_accumulated_revenue tza now transactions period series p :
  generateChartData tza now transactions period = Some series ->
  In p series ->
  let raw := rawRevenue tza now period (date p) transactions in
  revenue p = (JSNumber.Math_round (raw * 100) / 100)%float /\
  fees p = (JSNumber.Math_round (raw * 0.01 * 100) / 100)%float.
Proof.
  destruct transactions as [|tx r].
  - intros [= <-] Hin.
    pose proof (getEmptyChartData_zero tza now period) as Hz.
    rewrite Forall_forall in Hz. destruct (Hz p Hin) as (Hr & _ & Hf).
    rewrite Hr, Hf. split; reflexivity.
  - rewrite generateChartData_spec by discriminate.
    intros [= <-] Hin. apply in_map_iff in Hin.
    destruct Hin as (k & <- & _). simpl.
    rewrite bucket_revenue. split; reflexivity.
Qed.

(** The bucket of 28 March after one transaction of 0.496. *)
Lemma fees_from_accumulated_revenue_sample :
  revenue (mkPoint "28/03" 0.5 1 0) =
    (JSNumber.Math_round
       (rawRevenue Sample.utc Sample.noon_31_Mar_2025 week "28/03"
          [Sample.tx_at Sample.noon_28_Mar (Some "0.496")] * 100) / 100)%float /\
  fees (mkPoint "28/03" 0.5 1 0) =
    (JSNumber.Math_round
       (rawRevenue Sample.utc Sample.noon_31_Mar_2025 week "28/03"
          [Sample.tx_at Sample.noon_28_Mar (Some "0.496")] * 0.01 * 100) / 100)%float.
Proof.
  apply (fees_from_accumulated_revenue Sample.utc Sample.noon_31_Mar_2025
           [Sample.tx_at Sample.noon_28_Mar (Some "0.496")] week
           [mkPoint "25/03" 0 0 0; mkPoint "26/03" 0 0 0; mkPoint "27/03" 0 0 0;
            mkPoint "28/03" 0.5 1 0;
            mkPoint "29/03" 0 0 0; mkPoint "30/03" 0 0 0; mkPoint "31/03" 0 0 0]
           (mkPoint "28/03" 0.5 1 0)).
  - vm_compute. reflexivity.
  - simpl. tauto.
Defined.

(** C3, as stated, fails: one transaction of 0.496 gives its bucket the
    revenue 0.50 and the fees 0, while 1% of the rounded revenue, rounded,
    is 0.01. *)
Lemma fees_not_from_rounded_revenue :
  exists series p,
    generateChartData Sample.utc Sample.noon_31_Mar_2025
      [Sample.tx_at Sample.noon_28_Mar (Some "0.496")] week = Some series /\
    In p series /\
    revenue p = 0.5%float /\
    fees p = 0%float /\
    (JSNumber.Math_round (revenue p * 0.01 * 100) / 100)%float = 0.01%float /\
    fees p <> (JSNumber.Math_round (revenue p * 0.01 * 100) / 100)%float.
Proof.
  eexists. exists (mkPoint "28/03" 0.5 1 0).
  split; [vm_compute; reflexivity|].
  split; [simpl; tauto|].
  repeat split; try reflexivity.
  apply float_neq; reflexivity.
Qed.


(* ================================================================== *)
(** ** String timestamps *)

(** C5, as the code has it: a string timestamp is left out when it is empty
    or converts to NaN; a non-empty string that converts to a number other
    than zero is treated exactly as that number. *)
Theorem string_timestamp_as_number tza now s a b :
  let txs := mkTx (TsString s) a b in
  let txn := mkTx (TsNumber (JSString.StringToNumber s)) a b in
  (s = "" \/ JSString.StringToNumber s = nan ->
   forall w g, visitDay tza now w g txs = Some g /\
               visitMonth tza now w g txs = Some g) /\
  (s <> "" -> JSNumber.truthy (JSString.StringToNumber s) = true ->
   forall w g, visitDay tza now w g txs = visitDay tza now w g txn /\
               visitMonth tza now w g txs = visitMonth tza now w g txn).
Proof.
  intros txs txn. split.
  - intros [-> | E] w g.
    + split; reflexivity.
    + unfold visitDay, visitMonth, txDate. simpl.
      rewrite E. destruct (String.eqb s ""); split; reflexivity.
  - intros Hs Ht w g.
    unfold visitDay, visitMonth, txDate. simpl.
    rewrite Ht. simpl.
    destruct (String.eqb_spec s "") as [->|_]; [congruence|].
    split; reflexivity.
Qed.

(** The empty string, and the string "1743163200" against the number
    1743163200, visited on the [week] skeleton of 31 March 2025. *)
Lemma string_timestamp_as_number_sample :
  (visitDay Sample.utc Sample.noon_31_Mar_2025 7 (daySkeleton Sample.utc Sample.noon_31_Mar_2025 7)
     (mkTx (TsString "") (Some "12.50") None)
   = Some (daySkeleton Sample.utc Sample.noon_31_Mar_2025 7)) /\
  (visitDay Sample.utc Sample.noon_31_Mar_2025 7 (daySkeleton Sample.utc Sample.noon_31_Mar_2025 7)
     (mkTx (TsString "1743163200") (Some "12.50") None)
   = visitDay Sample.utc Sample.noon_31_Mar_2025 7 (daySkeleton Sample.utc Sample.noon_31_Mar_2025 7)
       (mkTx (TsNumber (JSString.StringToNumber "1743163200")) (Some "12.50") None)).
Proof.
  split.
  - exact (proj1 (proj1 (string_timestamp_as_number Sample.utc Sample.noon_31_Mar_2025
                           "" (Some "12.50") None)
                        (or_introl eq_refl)
                        7 (daySkeleton Sample.utc Sample.noon_31_Mar_2025 7))).
  - assert (Hs : "1743163200" <> "") by discriminate.
    assert (Ht : JSNumber.truthy (JSString.StringToNumber "1743163200") = true)
      by (vm_compute; reflexivity).
    exact (proj1 (proj2 (string_timestamp_as_number Sample.utc Sample.noon_31_Mar_2025
                           "1743163200" (Some "12.50") None)
                        Hs Ht
                        7 (daySkeleton Sample.utc Sample.noon_31_Mar_2025 7))).
Defined.

(** C5, as stated, fails: the transaction stamped with the string
    "1743163200" is counted in the bucket of 28 March. *)
Lemma string_timestamp_is_bucketed :
  option_map (map (fun p => (date p, transactions p)))
    (generateChartData Sample.utc Sample.noon_31_Mar_2025
       [mkTx (TsString "1743163200") (Some "12.50") None] week)
  = Some [("25/03", 0); ("26/03", 0); ("27/03", 0); ("28/03", 1);
          ("29/03", 0); ("30/03", 0); ("31/03", 0)].
Proof. vm_compute. reflexivity. Qed.

(* ================================================================== *)
(** ** The edges of the daily window *)

(** In a zone with a fixed offset, a transaction [w - 1] whole days old falls
    on the oldest local day of the window when its time of day is not later
    than that of [now], and on the day before it otherwise. *)
Lemma local_day_at_edge tza c now t w :
  JSDate.fixed tza c ->
  daysDiff now t = w - 1 ->
  (JSDate.TimeWithinDay (JSDate.LocalTime tza t)
     <= JSDate.TimeWithinDay (JSDate.LocalTime tza now) ->
   JSDate.Day (JSDate.LocalTime tza t) = today tza now - (w - 1)) /\
  (JSDate.TimeWithinDay (JSDate.LocalTime tza now)
     < JSDate.TimeWithinDay (JSDate.LocalTime tza t) ->
   JSDate.Day (JSDate.LocalTime tza t) = today tza now - w).
Proof.
  intros Hz. unfold today.
  rewrite !(LocalTime_fixed tza c _ Hz).
  unfold daysDiff, JSDate.Day, JSDate.TimeWithinDay, JSDate.msPerDay.
  change (1000 * 60 * 60 * 24) with 86400000.
  intros H. split; intros Hc; Z.div_mod_to_equations; lia.
Qed.

Lemma update_head key f v (r : GroupedData) :
  update key f ((key, v) :: r) = (key, f v) :: r.
Proof. simpl. now rewrite String.eqb_refl. Qed.

(** The skeleton loop only appends. *)
Lemma ensure_loop_prefix (key : Z -> string) l g :
  exists rest, fold_left (fun g i => ensure (key i) g) l g = g ++ rest.
Proof.
  revert g. induction l as [|i r IH]; intros g; cbn [fold_left].
  - exists []. now rewrite app_nil_r.
  - destruct (IH (ensure (key i) g)) as [rest Hrest]. rewrite Hrest.
    unfold ensure. destruct (lookup (key i) g).
    + now exists rest.
    + exists ((key i, mkGroup 0%float 0) :: rest). now rewrite <- app_assoc.
Qed.

(** In every zone the first label of a daily skeleton is the label of the
    day [n] days back, [n + 1] being the number of days. *)
Lemma daySkeleton_head tza now n :
  exists rest,
    map fst (daySkeleton tza now (S n)) = dayKey tza now (Z.of_nat n) :: rest.
Proof.
  unfold daySkeleton. cbn [countdown]. rewrite countdown_fold.
  destruct (ensure_loop_prefix (dayKey tza now) (downto n)
              (ensure (dayKey tza now (Z.of_nat n)) [])) as [rest Hrest].
  rewrite Hrest. exists (map fst rest). reflexivity.
Qed.

(** The two edges for a window of [n + 1] days, in every zone. *)
Lemma daily_edges tza now n tx t :
  falsy (timestamp tx) = false ->
  txDate tx = Some t ->
  (daysDiff now t = Z.of_nat (S n) ->
   forall g, visitDay tza now (Z.of_nat (S n)) g tx = Some g) /\
  (daysDiff now t = Z.of_nat n ->
   forall g, map fst g = map fst (daySkeleton tza now (S n)) ->
   visitDay tza now (Z.of_nat (S n)) g tx
   = Some (update (dateFormat tza t) (hit tx) g) /\
   (dateFormat tza t = dayKey tza now (Z.of_nat n) ->
    exists v r,
      g = (dayKey tza now (Z.of_nat n), v) :: r /\
      visitDay tza now (Z.of_nat (S n)) g tx
      = Some ((dayKey tza now (Z.of_nat n), hit tx v) :: r)) /\
   (~ In (dateFormat tza t) (map fst (daySkeleton tza now (S n))) ->
    visitDay tza now (Z.of_nat (S n)) g tx = Some g)).
Proof.
  intros Hf Ht. split.
  - intros Hd g. unfold visitDay. rewrite Hf, Ht, Hd.
    rewrite Z.ltb_irrefl, andb_false_r. reflexivity.
  - intros Hd g Hg.
    assert (Hstep : visitDay tza now (Z.of_nat (S n)) g tx =
                    Some (update (dateFormat tza t) (hit tx) g)).
    { rewrite visitDay_step. unfold dayTarget. rewrite Hf, Ht, Hd.
      replace ((0 <=? Z.of_nat n) && (Z.of_nat n <? Z.of_nat (S n))) with true
        by (symmetry; apply andb_true_iff; split;
            [apply Z.leb_le | apply Z.ltb_lt]; lia).
      reflexivity. }
    split; [exact Hstep|]. split.
    + intros Hkey. rewrite Hstep, Hkey.
      destruct (daySkeleton_head tza now n) as [rest Hrest].
      rewrite Hrest in Hg.
      destruct g as [|[k v] r]; [discriminate|].
      cbn [map fst] in Hg. injection Hg as Hk _. subst k.
      exists v, r. split; [reflexivity|]. rewrite update_head. reflexivity.
    + intros Hnot. rewrite Hstep. f_equal. apply update_absent.
      apply lookup_None_notin. now rewrite Hg.
Qed.

(** In a zone with a fixed offset the time of day decides between the two
    cases of the older edge. *)
Lemma daily_edge_fixed tza c now n t :
  JSDate.fixed tza c ->
  (S n < 365)%nat ->
  daysDiff now t = Z.of_nat n ->
  if JSDate.TimeWithinDay (JSDate.LocalTime tza t)
       <=? JSDate.TimeWithinDay (JSDate.LocalTime tza now)
  then dateFormat tza t = dayKey tza now (Z.of_nat n)
  else ~ In (dateFormat tza t) (map fst (daySkeleton tza now (S n))).
Proof.
  intros Hz Hn Hd.
  assert (Hd' : daysDiff now t = Z.of_nat (S n) - 1) by lia.
  destruct (local_day_at_edge tza c now t (Z.of_nat (S n)) Hz Hd') as [Hle Hgt].
  destruct (Z.leb_spec (JSDate.TimeWithinDay (JSDate.LocalTime tza t))
                       (JSDate.TimeWithinDay (JSDate.LocalTime tza now)))
    as [Hc|Hc].
  - rewrite dateFormat_keyOfDay, (Hle Hc), (dayKey_keyOfDay tza c now _ Hz).
    f_equal. lia.
  - rewrite (daySkeleton_keys tza c now (S n) Hz) by lia.
    rewrite dateFormat_keyOfDay, (Hgt Hc), in_map_iff.
    intros (i & Hi & Hin). apply downto_In in Hin.
    rewrite (dayKey_keyOfDay tza c now _ Hz) in Hi.
    apply keyOfDay_inj in Hi; lia.
Qed.




(* ================================================================== *)
(** ** Order of the transactions *)

Lemma filter_Permutation {A : Type} (f : A -> bool) l l' :
  Permutation l l' -> Permutation (filter f l) (filter f l').
Proof.
  induction 1 as [|x l l' _ IH|x y l|l l' l'' _ IH1 _ IH2]; simpl.
  - constructor.
  - destruct (f x); [now constructor | exact IH].
  - destruct (f x), (f y); try reflexivity. constructor.
  - now transitivity (filter f l').
Qed.

(** *** The labels, in the order of the skeleton loops *)

Lemma lookup_existsb key g :
  match lookup key g with Some _ => true | None => false end
  = existsb (fun k' => String.eqb k' key) (map fst g).
Proof.
  induction g as [|[k v] r IH]; cbn [lookup map fst existsb]; [reflexivity|].
  destruct (String.eqb k key); [reflexivity | exact IH].
Qed.

Lemma ensure_loop_keys (key : Z -> string) l g :
  map fst (fold_left (fun g i => ensure (key i) g) l g) =
  fold_left (fun acc k =>
               if existsb (fun k' => String.eqb k' k) acc then acc
               else acc ++ [k])
            (map key l) (map fst g).
Proof.
  revert g. induction l as [|i r IH]; intros g; cbn [fold_left map]; [reflexivity|].
  rewrite IH. f_equal. unfold ensure.
  rewrite <- lookup_existsb.
  destruct (lookup (key i) g); [reflexivity|].
  now rewrite map_app.
Qed.

Lemma labelOf_bucketDate tza now period i :
  labelOf tza period (bucketDate tza now period i) =
  match period with
  | year => monthKey tza now i
  | _ => dayKey tza now i
  end.
Proof.
  destruct period; cbn [labelOf bucketDate]; unfold dayKey, monthKey; reflexivity.
Qed.

(** A populated run carries the labels of the dates the loop sets, index
    [n - 1] first, each label where it is first met. *)
Lemma labels_firstOccurrences tza now period :
  labels tza now period =
  firstOccurrences
    (map (fun i => labelOf tza period (bucketDate tza now period i))
         (downto (bucketCount period))).
Proof.
  rewrite (map_ext _ _ (labelOf_bucketDate tza now period)).
  unfold labels, skeleton, monthSkeleton, daySkeleton, firstOccurrences.
  destruct period; cbn [bucketCount]; rewrite countdown_fold, ensure_loop_keys;
    cbn [map fst]; reflexivity.
Qed.

(** The placeholder series carries the label of every date the loop sets. *)
Lemma getEmptyChartData_labels tza now period :
  map date (getEmptyChartData tza now period) =
  map (fun i => labelOf tza period (bucketDate tza now period i))
      (downto (bucketCount period)).
Proof.
  rewrite (map_ext _ _ (labelOf_bucketDate tza now period)).
  rewrite getEmptyChartData_spec, map_map.
  apply map_ext. intros i. cbn [date]. reflexivity.
Qed.

(** *** The dates of the loops, in a zone with a fixed offset *)

Lemma month_step_ok_cycle : all_from 0 400 month_step_ok = true.
Proof. vm_cast_no_check (eq_refl true). Qed.

(** The first of a month is at least 28 days after the first of the month
    before. *)
Lemma first_of_month_step y m :
  (1 <= m <= 11 ->
   JSDate.days_from_civil y m 1 + 28 <= JSDate.days_from_civil y (m + 1) 1) /\
  JSDate.days_from_civil y 12 1 + 28 <= JSDate.days_from_civil (y + 1) 1 1.
Proof.
  pose proof (Z.div_mod y 400 ltac:(lia)) as Hy.
  assert (Hr : 0 <= y mod 400 < 400) by (apply Z.mod_pos_bound; lia).
  assert (H : month_step_ok (y mod 400) = true)
    by (apply (all_from_spec _ _ _ month_step_ok_cycle); simpl; lia).
  unfold month_step_ok in H. apply andb_true_iff in H. destruct H as [H1 H2].
  replace y with (y mod 400 + (y / 400) * 400) at 1 2 3 by lia.
  replace (y + 1) with (y mod 400 + 1 + (y / 400) * 400) by lia.
  rewrite !days_from_civil_era. split.
  - intros Hm.
    pose proof (all_from_spec _ _ _ H1 m ltac:(simpl; lia)) as Hc.
    cbv beta in Hc. apply Z.leb_le in Hc. lia.
  - apply Z.leb_le in H2. lia.
Qed.

Lemma MakeDay_month_step y m d :
  JSDate.MakeDay y m d + 28 <= JSDate.MakeDay y (m + 1) d.
Proof.
  unfold JSDate.MakeDay.
  assert (Hr : 0 <= m mod 12 < 12) by (apply Z.mod_pos_bound; lia).
  pose proof (Z.div_mod m 12 ltac:(lia)) as Hm.
  destruct (first_of_month_step (y + m / 12) (m mod 12 + 1)) as [Hstep Hdec].
  destruct (Z.eq_dec (m mod 12) 11) as [E|E].
  - assert (Hq : (m + 1) / 12 = m / 12 + 1)
      by (symmetry; apply (Z.div_unique _ _ _ 0); lia).
    assert (Hmod : (m + 1) mod 12 = 0)
      by (symmetry; apply (Z.mod_unique _ _ (m / 12 + 1)); lia).
    rewrite Hq, Hmod, E in *. cbn [Z.add Pos.add Pos.succ] in *.
    replace (y + (m / 12 + 1)) with (y + m / 12 + 1) by lia. lia.
  - assert (Hq : (m + 1) / 12 = m / 12)
      by (symmetry; apply (Z.div_unique _ _ _ (m mod 12 + 1)); lia).
    assert (Hmod : (m + 1) mod 12 = m mod 12 + 1)
      by (symmetry; apply (Z.mod_unique _ _ (m / 12)); lia).
    rewrite Hq, Hmod. specialize (Hstep ltac:(lia)). lia.
Qed.

Lemma MakeDay_month_lt y m k d :
  0 < k -> JSDate.MakeDay y m d < JSDate.MakeDay y (m + k) d.
Proof.
  intros Hk. replace k with (Z.succ (k - 1)) by lia.
  assert (H0 : 0 <= k - 1) by lia. revert H0.
  generalize (k - 1). clear k Hk.
  apply natlike_ind.
  - pose proof (MakeDay_month_step y m d). replace (m + Z.succ 0) with (m + 1) by lia.
    lia.
  - intros x Hx IH.
    pose proof (MakeDay_month_step y (m + Z.succ x) d) as Hs.
    replace (m + Z.succ (Z.succ x)) with (m + Z.succ x + 1) by lia.
    lia.
Qed.

(** In a zone with a fixed offset the date the loop sets at a larger index
    is strictly earlier: the loops run from the oldest bucket to the
    newest. *)
Lemma bucketDate_older tza c now period i j :
  JSDate.fixed tza c ->
  j < i -> bucketDate tza now period i < bucketDate tza now period j.
Proof.
  intros Hz Hlt.
  assert (Hdaily :
    JSDate.setDate tza now (JSDate.getDate tza now - i)
    < JSDate.setDate tza now (JSDate.getDate tza now - j)).
  { unfold JSDate.setDate. rewrite !(UTC_fixed tza c _ Hz).
    unfold JSDate.MakeDate, JSDate.MakeDay, JSDate.msPerDay. lia. }
  destruct period; cbn [bucketDate]; try exact Hdaily.
  unfold JSDate.setMonth. rewrite !(UTC_fixed tza c _ Hz).
  pose proof (MakeDay_month_lt
                (JSDate.YearFromTime (JSDate.LocalTime tza now))
                (JSDate.getMonth tza now - i) (i - j)
                (JSDate.DateFromTime (JSDate.LocalTime tza now)) ltac:(lia)) as H.
  replace (JSDate.getMonth tza now - i + (i - j))
    with (JSDate.getMonth tza now - j) in H by lia.
  unfold JSDate.MakeDate, JSDate.msPerDay. lia.
Qed.

(** In a zone with a fixed offset the labels of a daily series are those of
    the days of the window, oldest first. *)
Lemma generateChartData_daily_dates tza c now transactions period series :
  JSDate.fixed tza c ->
  period <> year ->
  generateChartData tza now transactions period = Some series ->
  map date series =
  map (fun i => keyOfDay (today tza now - i)) (downto (bucketCount period)).
Proof.
  intros Hz Hp.
  assert (Hl : labels tza now period =
               map (fun i => keyOfDay (today tza now - i))
                   (downto (bucketCount period))).
  { rewrite (labels_daily tza c now period Hz Hp). apply map_ext. intros i.
    apply (dayKey_keyOfDay tza c now i Hz). }
  destruct transactions as [|tx r].
  - intros [= <-].
    rewrite (getEmptyChartData_daily_labels tza c now period Hz Hp). exact Hl.
  - rewrite generateChartData_spec by discriminate. intros [= <-].
    rewrite map_map. simpl. now rewrite map_id.
Qed.





(* ================================================================== *)
(** * Further properties *)

(** ** Shape of a populated series *)

Lemma ensure_loop_length (key : Z -> string) l g :
  (List.length g <= List.length (fold_left (fun g i => ensure (key i) g) l g)
   <= List.length g + List.length l)%nat.
Proof.
  revert g. induction l as [|i r IH]; intros g; simpl.
  - lia.
  - specialize (IH (ensure (key i) g)).
    assert (H : (List.length g <= List.length (ensure (key i) g)
                 <= List.length g + 1)%nat).
    { unfold ensure. destruct (lookup (key i) g).
      - lia.
      - rewrite length_app. simpl. lia. }
    lia.
Qed.

Lemma ensure_countdown_length (key : Z -> string) n :
  (0 < n)%nat ->
  (1 <= List.length (countdown (fun i g => ensure (key i) g) n []) <= n)%nat.
Proof.
  destruct n as [|n]; [lia|]. intros _.
  cbn [countdown]. rewrite countdown_fold.
  pose proof (ensure_loop_length key (downto n) (ensure (key (Z.of_nat n)) [])) as H.
  rewrite downto_length in H. simpl in H. lia.
Qed.

Lemma labels_length tza now period :
  (1 <= List.length (labels tza now period) <= bucketCount period)%nat.
Proof.
  unfold labels. rewrite length_map.
  unfold skeleton, monthSkeleton, daySkeleton.
  destruct period; cbn [bucketCount]; apply ensure_countdown_length; lia.
Qed.

(** X1: a populated run never repeats a label, and returns at least one
    and at most 7, 30 or 12 points, whatever the period, [now] and the
    transactions are. *)
Theorem populated_series_shape tza now transactions period series :
  transactions <> [] ->
  generateChartData tza now transactions period = Some series ->
  NoDup (map date series) /\
  (1 <= List.length series <= bucketCount period)%nat.
Proof.
  intros Hne. rewrite generateChartData_spec by exact Hne.
  intros [= <-]. rewrite map_map. cbn [toPoint date]. rewrite map_id, length_map.
  split; [apply skeleton_NoDup | apply labels_length].
Qed.

(** The run of 31 March 2025 with one transaction in the [year] period. *)
Lemma populated_series_shape_sample :
  NoDup (map date
           [mkPoint "May" 0 0 0; mkPoint "Jul" 0 0 0; mkPoint "Aug" 0 0 0;
            mkPoint "Oct" 0 0 0; mkPoint "Dec" 0 0 0; mkPoint "Jan" 0 0 0;
            mkPoint "Mar" 25 1 0.25]) /\
  (1 <= List.length
          [mkPoint "May" 0 0 0; mkPoint "Jul" 0 0 0; mkPoint "Aug" 0 0 0;
           mkPoint "Oct" 0 0 0; mkPoint "Dec" 0 0 0; mkPoint "Jan" 0 0 0;
           mkPoint "Mar" 25 1 0.25] <= bucketCount year)%nat.
Proof.
  apply (populated_series_shape Sample.utc Sample.noon_31_Mar_2025
           [Sample.tx_at Sample.noon_28_Mar (Some "25.00")] year).
  - discriminate.
  - vm_compute. reflexivity.
Defined.

(* ================================================================== *)
(** ** Counting *)

Lemma hits_target tza now period k tx :
  hits tza now period k tx = true -> target tza now period tx = Some k.
Proof.
  unfold hits. destruct (target tza now period tx) as [k'|]; [|discriminate].
  intros H. apply String.eqb_eq in H. now subst.
Qed.

(** Over labels without repetition, a transaction hits one label when it
    is recorded and none otherwise. *)
Lemma hits_once tza now period tx ks :
  NoDup ks ->
  fold_right Z.add 0
    (map (fun k => if hits tza now period k tx then 1 else 0) ks) =
  if existsb (fun k => hits tza now period k tx) ks then 1 else 0.
Proof.
  induction 1 as [|k ks Hk Hnd IH]; cbn [map fold_right existsb]; [reflexivity|].
  rewrite IH. destruct (hits tza now period k tx) eqn:E; cbn [orb]; [|lia].
  destruct (existsb (fun k0 => hits tza now period k0 tx) ks) eqn:Ex; [|lia].
  exfalso. apply existsb_exists in Ex. destruct Ex as (k' & Hin & Hk').
  apply hits_target in E, Hk'. rewrite E in Hk'. injection Hk' as ->.
  contradiction.
Qed.

Lemma sum_counts tza now period l ks :
  NoDup ks ->
  fold_right Z.add 0
    (map (fun k => Z.of_nat (List.length (filter (hits tza now period k) l))) ks) =
  Z.of_nat (List.length
              (filter (fun tx => existsb (fun k => hits tza now period k tx) ks) l)).
Proof.
  intros Hnd. induction l as [|tx r IH].
  - cbn [filter List.length]. induction ks; cbn [map fold_right]; auto.
    inversion Hnd; subst. rewrite IHks; auto.
  - cbn [filter].
    assert (Hsplit :
      fold_right Z.add 0
        (map (fun k => Z.of_nat
                (List.length (if hits tza now period k tx
                              then tx :: filter (hits tza now period k) r
                              else filter (hits tza now period k) r))) ks) =
      fold_right Z.add 0
        (map (fun k => if hits tza now period k tx then 1 else 0) ks) +
      fold_right Z.add 0
        (map (fun k => Z.of_nat (List.length (filter (hits tza now period k) r))) ks)).
    { clear. induction ks as [|k ks IHk]; cbn [map fold_right]; [reflexivity|].
      rewrite IHk. destruct (hits tza now period k tx); cbn [List.length]; lia. }
    rewrite Hsplit, IH. rewrite (hits_once tza now period tx ks Hnd).
    destruct (existsb (fun k => hits tza now period k tx) ks);
      cbn [List.length]; lia.
Qed.

(** X2: in a populated run every bucket counts the transactions recorded
    under its label, a bucket that counts none has revenue 0 and fees 0, and
    the counts of all buckets add up to the number of recorded transactions,
    so that no transaction is counted twice and the total never exceeds the
    length of the list. *)
Theorem counts_of_populated_series tza now txs period series :
  txs <> [] ->
  generateChartData tza now txs period = Some series ->
  (forall p, In p series ->
     transactions p
       = Z.of_nat (List.length (filter (hits tza now period (date p)) txs)) /\
     (transactions p = 0 -> revenue p = 0%float /\ fees p = 0%float)) /\
  totalCount series
    = Z.of_nat (List.length (filter (recorded tza now period) txs)) /\
  totalCount series <= Z.of_nat (List.length txs).
Proof.
  intros Hne. rewrite generateChartData_spec by exact Hne. intros E.
  assert (Hs : series = map (fun k => toPoint (k, bucket tza now period k txs))
                            (labels tza now period)) by congruence.
  clear E. subst series.
  assert (Htotal :
    totalCount (map (fun k => toPoint (k, bucket tza now period k txs))
                    (labels tza now period))
    = Z.of_nat (List.length (filter (recorded tza now period) txs))).
  { unfold totalCount. rewrite map_map. cbn [toPoint transactions].
    rewrite (map_ext _ (fun k => Z.of_nat (List.length
                                   (filter (hits tza now period k) txs))))
      by (intros k; apply bucket_count).
    apply sum_counts. apply skeleton_NoDup. }
  split; [|split].
  - intros p Hin. apply in_map_iff in Hin. destruct Hin as (k & <- & _).
    cbn [toPoint date transactions revenue fees].
    rewrite bucket_count. split; [reflexivity|].
    intros H0. unfold bucket. rewrite bucketFrom_filter.
    destruct (filter (hits tza now period k) txs) as [|tx r];
      [split; reflexivity | cbn [List.length] in H0; lia].
  - exact Htotal.
  - rewrite Htotal. apply inj_le. apply filter_length_le.
Qed.

(** The three transactions of 28 March in the [week] period. *)
Lemma counts_of_populated_series_sample :
  (forall p,
      In p [mkPoint "25/03" 0 0 0; mkPoint "26/03" 0 0 0; mkPoint "27/03" 0 0 0;
            mkPoint "28/03" 5.11 3 0.05;
            mkPoint "29/03" 0 0 0; mkPoint "30/03" 0 0 0; mkPoint "31/03" 0 0 0] ->
      transactions p
        = Z.of_nat (List.length
                      (filter (hits Sample.utc Sample.noon_31_Mar_2025 week (date p))
                              Sample.three_amounts)) /\
      (transactions p = 0 -> revenue p = 0%float /\ fees p = 0%float)) /\
  totalCount
    [mkPoint "25/03" 0 0 0; mkPoint "26/03" 0 0 0; mkPoint "27/03" 0 0 0;
     mkPoint "28/03" 5.11 3 0.05;
     mkPoint "29/03" 0 0 0; mkPoint "30/03" 0 0 0; mkPoint "31/03" 0 0 0]
    = Z.of_nat (List.length (filter (recorded Sample.utc Sample.noon_31_Mar_2025 week)
                                    Sample.three_amounts)) /\
  totalCount
    [mkPoint "25/03" 0 0 0; mkPoint "26/03" 0 0 0; mkPoint "27/03" 0 0 0;
     mkPoint "28/03" 5.11 3 0.05;
     mkPoint "29/03" 0 0 0; mkPoint "30/03" 0 0 0; mkPoint "31/03" 0 0 0]
    <= Z.of_nat (List.length Sample.three_amounts).
Proof.
  apply (counts_of_populated_series Sample.utc Sample.noon_31_Mar_2025
           Sample.three_amounts week).
  - discriminate.
  - vm_compute. reflexivity.
Defined.


(* ================================================================== *)
(** ** One more transaction *)

Lemma bucket_snoc tza now period k txs tx :
  bucket tza now period k (txs ++ [tx]) =
  if hits tza now period k tx
  then hit tx (bucket tza now period k txs)
  else bucket tza now period k txs.
Proof. unfold bucket, bucketFrom. rewrite fold_left_app. reflexivity. Qed.

(** X3: appending a transaction to a non-empty list keeps every label,
    leaves every bucket the transaction does not hit exactly as it was, and
    adds one to the count of the bucket it hits; it hits at most one
    bucket. *)
Theorem appended_transaction tza now txs tx period series :
  txs <> [] ->
  generateChartData tza now txs period = Some series ->
  exists series',
    generateChartData tza now (txs ++ [tx]) period = Some series' /\
    Forall2 (fun p p' =>
               date p' = date p /\
               if hits tza now period (date p) tx
               then transactions p' = transactions p + 1
               else p' = p) series series' /\
    (forall p q, In p series -> In q series ->
                 hits tza now period (date p) tx = true ->
                 hits tza now period (date q) tx = true -> p = q).
Proof.
  intros Hne. rewrite generateChartData_spec by exact Hne. intros E.
  assert (Hs : series = map (fun k => toPoint (k, bucket tza now period k txs))
                            (labels tza now period)) by congruence.
  clear E. subst series.
  rewrite generateChartData_spec by (destruct txs; discriminate).
  eexists. split; [reflexivity|]. split.
  - induction (labels tza now period) as [|k ks IH]; cbn [map]; constructor; auto.
    cbn [toPoint date transactions]. split; [reflexivity|].
    rewrite bucket_snoc. destruct (hits tza now period k tx); reflexivity.
  - intros p q Hp Hq. apply in_map_iff in Hp, Hq.
    destruct Hp as (k & <- & _). destruct Hq as (k' & <- & _).
    cbn [toPoint date]. intros H H'.
    apply hits_target in H, H'. rewrite H in H'. now injection H' as ->.
Qed.

(** A transaction of 28 March after a transaction of 25 March. *)
Lemma appended_transaction_sample :
  exists series',
    generateChartData Sample.utc Sample.noon_31_Mar_2025
      ([Sample.tx_at Sample.morning_25_Mar (Some "5")]
         ++ [Sample.tx_at Sample.noon_28_Mar (Some "0.496")]) week = Some series' /\
    Forall2 (fun p p' =>
               date p' = date p /\
               if hits Sample.utc Sample.noon_31_Mar_2025 week (date p)
                       (Sample.tx_at Sample.noon_28_Mar (Some "0.496"))
               then transactions p' = transactions p + 1
               else p' = p)
            [mkPoint "25/03" 5 1 0.05; mkPoint "26/03" 0 0 0; mkPoint "27/03" 0 0 0;
             mkPoint "28/03" 0 0 0;
             mkPoint "29/03" 0 0 0; mkPoint "30/03" 0 0 0; mkPoint "31/03" 0 0 0]
            series' /\
    (forall p q,
        In p [mkPoint "25/03" 5 1 0.05; mkPoint "26/03" 0 0 0; mkPoint "27/03" 0 0 0;
              mkPoint "28/03" 0 0 0;
              mkPoint "29/03" 0 0 0; mkPoint "30/03" 0 0 0; mkPoint "31/03" 0 0 0] ->
        In q [mkPoint "25/03" 5 1 0.05; mkPoint "26/03" 0 0 0; mkPoint "27/03" 0 0 0;
              mkPoint "28/03" 0 0 0;
              mkPoint "29/03" 0 0 0; mkPoint "30/03" 0 0 0; mkPoint "31/03" 0 0 0] ->
        hits Sample.utc Sample.noon_31_Mar_2025 week (date p)
             (Sample.tx_at Sample.noon_28_Mar (Some "0.496")) = true ->
        hits Sample.utc Sample.noon_31_Mar_2025 week (date q)
             (Sample.tx_at Sample.noon_28_Mar (Some "0.496")) = true -> p = q).
Proof.
  apply (appended_transaction Sample.utc Sample.noon_31_Mar_2025
           [Sample.tx_at Sample.morning_25_Mar (Some "5")]
           (Sample.tx_at Sample.noon_28_Mar (Some "0.496")) week).
  - discriminate.
  - vm_compute. reflexivity.
Defined.

(* ================================================================== *)
(** ** Amounts that are not numbers *)

Lemma nan_add_l (x : float) : (nan + x)%float = nan.
Proof.
  rewrite <- (FloatAxioms.SF2Prim_Prim2SF (nan + x)), FloatAxioms.add_spec. reflexivity.
Qed.

Lemma nan_add_r (x : float) : (x + nan)%float = nan.
Proof.
  rewrite <- (FloatAxioms.SF2Prim_Prim2SF (x + nan)), FloatAxioms.add_spec.
  destruct (Prim2SF x); reflexivity.
Qed.

(** A sum that meets NaN once is NaN. *)
Lemma sum_with_nan {A : Type} (f : A -> float) l a s :
  In a l -> f a = nan ->
  fold_left (fun sum x => (sum + f x)%float) l s = nan.
Proof.
  assert (Hnan : forall r, fold_left (fun sum x => (sum + f x)%float) r nan = nan).
  { induction r as [|b r IH]; cbn [fold_left]; [reflexivity|].
    now rewrite nan_add_l. }
  revert s. induction l as [|b r IH]; intros s Hin Ha; [contradiction|].
  cbn [fold_left]. destruct Hin as [->|Hin].
  - rewrite Ha, nan_add_r. apply Hnan.
  - now apply IH.
Qed.

(** X4: when a transaction whose amount does not parse (the amount is NaN)
    is recorded under a label, the revenue and the fees of that bucket are
    NaN, whatever the other transactions of the list are and wherever it
    stands in the list. *)
Theorem unparseable_amount_poisons_bucket tza now txs period series p tx :
  generateChartData tza now txs period = Some series ->
  In p series ->
  In tx txs ->
  hits tza now period (date p) tx = true ->
  amount tx = nan ->
  revenue p = nan /\ fees p = nan.
Proof.
  intros E Hp Htx Hhit Hnan.
  assert (Hne : txs <> []) by (destruct txs; [contradiction | discriminate]).
  rewrite generateChartData_spec in E by exact Hne.
  assert (Hs : series = map (fun k => toPoint (k, bucket tza now period k txs))
                            (labels tza now period)) by congruence.
  clear E. subst series.
  apply in_map_iff in Hp. destruct Hp as (k & <- & _).
  cbn [toPoint date revenue fees] in *.
  rewrite bucket_revenue. unfold rawRevenue.
  rewrite (sum_with_nan amount _ tx); [split; reflexivity | | exact Hnan].
  apply filter_In. split; assumption.
Qed.

(** The amount "abc" between two amounts that parse. *)
Lemma unparseable_amount_poisons_bucket_sample :
  revenue (mkPoint "28/03" nan 3 nan) = nan /\
  fees (mkPoint "28/03" nan 3 nan) = nan.
Proof.
  apply (unparseable_amount_poisons_bucket Sample.utc Sample.noon_31_Mar_2025
           [Sample.tx_at Sample.noon_28_Mar (Some "1.50");
            Sample.tx_at Sample.noon_28_Mar (Some "abc");
            Sample.tx_at Sample.noon_28_Mar (Some "2.25")] week
           [mkPoint "25/03" 0 0 0; mkPoint "26/03" 0 0 0; mkPoint "27/03" 0 0 0;
            mkPoint "28/03" nan 3 nan;
            mkPoint "29/03" 0 0 0; mkPoint "30/03" 0 0 0; mkPoint "31/03" 0 0 0]
           (mkPoint "28/03" nan 3 nan)
           (Sample.tx_at Sample.noon_28_Mar (Some "abc"))).
  - vm_compute. reflexivity.
  - simpl. tauto.
  - simpl. tauto.
  - vm_compute. reflexivity.
  - vm_compute. reflexivity.
Defined.

(** X5: the total revenue of the overview is NaN as soon as the base
    currency amount of one transaction does not parse, and the number of
    transactions is the length of the list. *)
Theorem overview_total_with_unparseable_amount txs tx :
  In tx txs ->
  JSString.parseFloat (orZero (amountBC tx)) = nan ->
  totalRevenue (DashboardOverview txs) = nan /\
  totalTransactions (DashboardOverview txs) = Z.of_nat (List.length txs).
Proof.
  intros Hin Hnan. split; [|reflexivity].
  cbn [DashboardOverview totalRevenue].
  now apply (sum_with_nan (fun tx => JSString.parseFloat (orZero (amountBC tx)))
                          txs tx).
Qed.

Lemma overview_total_with_unparseable_amount_sample :
  totalRevenue (DashboardOverview
                  [mkTx (TsNumber 1743163200) (Some "1") (Some "12.5");
                   mkTx (TsNumber 1743163200) (Some "1") (Some "n/a")]) = nan /\
  totalTransactions (DashboardOverview
                  [mkTx (TsNumber 1743163200) (Some "1") (Some "12.5");
                   mkTx (TsNumber 1743163200) (Some "1") (Some "n/a")])
  = Z.of_nat (List.length
                  [mkTx (TsNumber 1743163200) (Some "1") (Some "12.5");
                   mkTx (TsNumber 1743163200) (Some "1") (Some "n/a")]).
Proof.
  apply (overview_total_with_unparseable_amount
           [mkTx (TsNumber 1743163200) (Some "1") (Some "12.5");
            mkTx (TsNumber 1743163200) (Some "1") (Some "n/a")]
           (mkTx (TsNumber 1743163200) (Some "1") (Some "n/a"))).
  - simpl. tauto.
  - vm_compute. reflexivity.
Defined.

(* ================================================================== *)
(** ** The daily window, by local calendar day *)

Lemma local_day_in_window tza c now t w :
  JSDate.fixed tza c ->
  0 <= daysDiff now t < w ->
  t <= now /\
  today tza now - w <= JSDate.Day (JSDate.LocalTime tza t) <= today tza now.
Proof.
  intros Hz. unfold today.
  rewrite !(LocalTime_fixed tza c _ Hz).
  unfold daysDiff, JSDate.Day, JSDate.msPerDay.
  change (1000 * 60 * 60 * 24) with 86400000.
  intros H. Z.div_mod_to_equations. lia.
Qed.

Lemma window_of_local_day tza c now t w :
  JSDate.fixed tza c ->
  t <= now ->
  today tza now - JSDate.Day (JSDate.LocalTime tza t) < w ->
  0 <= daysDiff now t < w.
Proof.
  intros Hz. unfold today.
  rewrite !(LocalTime_fixed tza c _ Hz).
  unfold daysDiff, JSDate.Day, JSDate.msPerDay.
  change (1000 * 60 * 60 * 24) with 86400000.
  intros H1 H2. Z.div_mod_to_equations. lia.
Qed.

Lemma nth_error_downto n j :
  (j < n)%nat -> nth_error (downto n) j = Some (Z.of_nat (n - 1 - j)).
Proof.
  revert j. induction n as [|n IH]; intros j Hj; [lia|].
  destruct j as [|j]; cbn [downto nth_error].
  - f_equal. f_equal. lia.
  - rewrite IH by lia. f_equal. f_equal. lia.
Qed.

Lemma existsb_false {A : Type} (f : A -> bool) l :
  (forall x, In x l -> f x = false) -> existsb f l = false.
Proof.
  intros H. destruct (existsb f l) eqn:E; [|reflexivity].
  apply existsb_exists in E. destruct E as (x & Hin & Hx).
  rewrite (H x Hin) in Hx. discriminate.
Qed.

(** The days of a window of [n < 365] days, in a zone with a fixed offset. *)
Lemma recorded_daily tza c now n tx t :
  JSDate.fixed tza c ->
  (n < 365)%nat ->
  falsy (timestamp tx) = false ->
  txDate tx = Some t ->
  let d := today tza now - JSDate.Day (JSDate.LocalTime tza t) in
  let ks := map (dayKey tza now) (downto n) in
  existsb (fun k => match dayTarget tza now (Z.of_nat n) tx with
                    | Some k' => String.eqb k k'
                    | None => false
                    end) ks
  = (t <=? now) && (d <? Z.of_nat n) /\
  ((t <=? now) && (d <? Z.of_nat n) = true ->
   dayTarget tza now (Z.of_nat n) tx = Some (dateFormat tza t) /\
   nth_error ks (Z.to_nat (Z.of_nat n - 1 - d)) = Some (dateFormat tza t)).
Proof.
  intros Hz Hn Hf Ht d ks.
  unfold dayTarget. rewrite Hf, Ht.
  assert (Hkey : dateFormat tza t = dayKey tza now d).
  { rewrite dateFormat_keyOfDay, (dayKey_keyOfDay tza c now d Hz).
    f_equal. unfold d. lia. }
  destruct ((t <=? now) && (d <? Z.of_nat n)) eqn:Hin.
  - apply andb_true_iff in Hin. destruct Hin as [H1 H2].
    apply Z.leb_le in H1. apply Z.ltb_lt in H2.
    pose proof (window_of_local_day tza c now t (Z.of_nat n) Hz H1 H2) as Hw.
    assert (Hd0 : 0 <= d).
    { destruct (local_day_in_window tza c now t (Z.of_nat n) Hz Hw) as [_ Hr].
      unfold d. lia. }
    replace ((0 <=? daysDiff now t) && (daysDiff now t <? Z.of_nat n)) with true
      by (symmetry; apply andb_true_iff; split;
          [apply Z.leb_le | apply Z.ltb_lt]; lia).
    split; [|intros _; split; [reflexivity|]].
    + apply existsb_exists. exists (dayKey tza now d). split.
      * apply in_map. apply downto_In. lia.
      * rewrite Hkey. apply String.eqb_refl.
    + unfold ks. rewrite nth_error_map.
      rewrite (nth_error_downto n (Z.to_nat (Z.of_nat n - 1 - d))) by lia.
      cbn [option_map]. rewrite Hkey.
      replace (Z.of_nat (n - 1 - Z.to_nat (Z.of_nat n - 1 - d))) with d by lia.
      reflexivity.
  - split; [|discriminate].
    destruct ((0 <=? daysDiff now t) && (daysDiff now t <? Z.of_nat n)) eqn:Hw;
      [|apply existsb_false; reflexivity].
    apply andb_true_iff in Hw. destruct Hw as [H1 H2].
    apply Z.leb_le in H1. apply Z.ltb_lt in H2.
    destruct (local_day_in_window tza c now t (Z.of_nat n) Hz (conj H1 H2))
      as [Hle Hr].
    apply andb_false_iff in Hin.
    assert (Hd : d = Z.of_nat n).
    { destruct Hin as [Hin|Hin];
        [apply Z.leb_gt in Hin | apply Z.ltb_ge in Hin]; unfold d in *; lia. }
    apply existsb_false. intros k Hk.
    apply in_map_iff in Hk. destruct Hk as (i & <- & Hi).
    apply downto_In in Hi.
    destruct (String.eqb_spec (dayKey tza now i) (dateFormat tza t)) as [E|_];
      [|reflexivity].
    rewrite Hkey, !(dayKey_keyOfDay tza c now _ Hz) in E.
    apply keyOfDay_inj in E; lia.
Qed.



(* ================================================================== *)
(** ** The [year] period before day 29 *)

Lemma ymd_ok_cycle : all_from 0 400 ymd_ok = true.
Proof. vm_cast_no_check (eq_refl true). Qed.

Lemma civil_from_days_era z e :
  JSDate.civil_from_days (z + e * JSDate.daysPerEra) =
  let '(y, m, d) := JSDate.civil_from_days z in (y + e * 400, m, d).
Proof.
  unfold JSDate.civil_from_days.
  replace (z + e * JSDate.daysPerEra + JSDate.eraShift)
    with (z + JSDate.eraShift + e * JSDate.daysPerEra) by lia.
  rewrite Z.div_add, Z.mod_add by (unfold JSDate.daysPerEra; lia).
  destruct (JSDate.civil_of_doe ((z + JSDate.eraShift) mod JSDate.daysPerEra))
    as [[y m] d].
  f_equal. f_equal. lia.
Qed.

Lemma ymd_ok_spec y m d :
  ymd_ok y = true -> 1 <= m <= 12 -> 1 <= d <= 28 ->
  JSDate.civil_from_days (JSDate.days_from_civil y m d) = (y, m, d).
Proof.
  unfold ymd_ok. intros H Hm Hd.
  pose proof (all_from_spec _ _ _ H m ltac:(simpl; lia)) as H'.
  cbv beta in H'.
  pose proof (all_from_spec _ _ _ H' d ltac:(simpl; lia)) as H''.
  cbv beta in H''.
  destruct (JSDate.civil_from_days (JSDate.days_from_civil y m d))
    as [[y' m'] d'].
  apply andb_true_iff in H''. destruct H'' as [H1 H3].
  apply andb_true_iff in H1. destruct H1 as [H1 H2].
  apply Z.eqb_eq in H1, H2, H3. subst. reflexivity.
Qed.

(** The days 1 to 28 of a month are days of that month. *)
Lemma civil_from_days_of_civil y m d :
  1 <= m <= 12 -> 1 <= d <= 28 ->
  JSDate.civil_from_days (JSDate.days_from_civil y m d) = (y, m, d).
Proof.
  intros Hm Hd.
  pose proof (Z.div_mod y 400 ltac:(lia)) as Hy.
  assert (Hr : 0 <= y mod 400 < 400) by (apply Z.mod_pos_bound; lia).
  assert (H : ymd_ok (y mod 400) = true).
  { apply (all_from_spec _ _ _ ymd_ok_cycle).
    change (0 + Z.of_nat 400) with 400. exact Hr. }
  pose proof (ymd_ok_spec (y mod 400) m d H Hm Hd) as E.
  assert (Hs : JSDate.days_from_civil y m d =
               JSDate.days_from_civil (y mod 400) m d
               + (y / 400) * JSDate.daysPerEra).
  { rewrite <- days_from_civil_era. f_equal. lia. }
  rewrite Hs, civil_from_days_era, E. f_equal. f_equal. lia.
Qed.

(** In a zone with a fixed offset, on the days 1 to 28 of a month,
    [setMonth(getMonth() - i)] lands in the month [i] months back. *)
Lemma monthKey_monthName tza c now i :
  JSDate.fixed tza c ->
  JSDate.getDate tza now <= 28 ->
  monthKey tza now i = monthName ((JSDate.getMonth tza now - i) mod 12).
Proof.
  intros Hz Hd.
  unfold monthKey, JSDate.monthShort, monthName. f_equal. f_equal.
  unfold JSDate.getMonth at 1. unfold JSDate.setMonth.
  rewrite (LocalTime_fixed tza c _ Hz), (UTC_fixed tza c _ Hz).
  unfold JSDate.getDate in Hd. unfold JSDate.getMonth.
  set (lt := JSDate.LocalTime tza now) in *.
  replace (JSDate.MakeDate
             (JSDate.MakeDay (JSDate.YearFromTime lt) (JSDate.MonthFromTime lt - i)
                             (JSDate.DateFromTime lt))
             (JSDate.TimeWithinDay lt) - c + c)
    with (JSDate.MakeDate
            (JSDate.MakeDay (JSDate.YearFromTime lt) (JSDate.MonthFromTime lt - i)
                            (JSDate.DateFromTime lt))
            (JSDate.TimeWithinDay lt)) by lia.
  unfold JSDate.MonthFromTime at 1.
  rewrite Day_MakeDate
    by (unfold JSDate.TimeWithinDay; apply Z.mod_pos_bound; reflexivity).
  assert (Hd1 : 1 <= JSDate.DateFromTime lt).
  { unfold JSDate.DateFromTime.
    destruct (JSDate.civil_from_days (JSDate.Day lt)) as [[y m] d] eqn:E.
    apply civil_from_days_spec in E. lia. }
  unfold JSDate.MakeDay. rewrite <- days_from_civil_day.
  assert (Hr : 0 <= (JSDate.MonthFromTime lt - i) mod 12 < 12)
    by (apply Z.mod_pos_bound; lia).
  rewrite civil_from_days_of_civil by lia. lia.
Qed.

(** The twelve labels ending with month [m]. *)
Lemma monthNames_firstOccurrences m :
  0 <= m <= 11 ->
  firstOccurrences (map (fun i => monthName ((m - i) mod 12)) (downto 12)) =
  map (fun i => monthName ((m - i) mod 12)) (downto 12).
Proof.
  intros Hm.
  assert (H : m = 0 \/ m = 1 \/ m = 2 \/ m = 3 \/ m = 4 \/ m = 5 \/ m = 6 \/
              m = 7 \/ m = 8 \/ m = 9 \/ m = 10 \/ m = 11) by lia.
  destruct H as [H|[H|[H|[H|[H|[H|[H|[H|[H|[H|[H|H]]]]]]]]]]]; subst m;
    vm_compute; reflexivity.
Qed.

Lemma getMonth_range tza t : 0 <= JSDate.getMonth tza t <= 11.
Proof.
  unfold JSDate.getMonth, JSDate.MonthFromTime.
  destruct (JSDate.civil_from_days (JSDate.Day (JSDate.LocalTime tza t)))
    as [[y m] d] eqn:E.
  apply civil_from_days_spec in E. lia.
Qed.

(** X7: in a zone with a fixed offset, when [now] falls on one of the days
    1 to 28 of its month, the [year] series, placeholder or populated, has
    the labels of the twelve months that end with the month of [now],
    oldest first, each once. *)
Theorem year_series_before_day_29 tza c now txs series :
  JSDate.fixed tza c ->
  JSDate.getDate tza now <= 28 ->
  generateChartData tza now txs year = Some series ->
  map date series =
  map (fun i => monthName ((JSDate.getMonth tza now - i) mod 12)) (downto 12) /\
  List.length series = 12%nat.
Proof.
  intros Hz Hd E.
  assert (Hks : map (fun i => labelOf tza year (bucketDate tza now year i))
                    (downto (bucketCount year)) =
                map (fun i => monthName ((JSDate.getMonth tza now - i) mod 12))
                    (downto 12)).
  { cbn [bucketCount]. apply map_ext. intros i.
    rewrite labelOf_bucketDate. apply (monthKey_monthName tza c now i Hz Hd). }
  assert (Hdates : map date series =
                   map (fun i => monthName ((JSDate.getMonth tza now - i) mod 12))
                       (downto 12)).
  { destruct txs as [|tx r].
    - assert (E0 : generateChartData tza now [] year =
                   Some (getEmptyChartData tza now year)) by reflexivity.
      assert (Hs : series = getEmptyChartData tza now year) by congruence.
      rewrite Hs, getEmptyChartData_labels. exact Hks.
    - rewrite generateChartData_spec in E by discriminate.
      assert (Hs : series =
                   map (fun k => toPoint (k, bucket tza now year k (tx :: r)))
                       (labels tza now year)) by congruence.
      rewrite Hs, map_map. cbn [toPoint date]. rewrite map_id.
      rewrite labels_firstOccurrences, Hks.
      apply monthNames_firstOccurrences. apply getMonth_range. }
  split; [exact Hdates|].
  rewrite <- (length_map date), Hdates, length_map. apply downto_length.
Qed.

(** 28 March 2025, noon, UTC, with one transaction: the months April to
    March. *)
Lemma year_series_before_day_29_sample :
  map date
      [mkPoint "Apr" 0 0 0; mkPoint "May" 0 0 0; mkPoint "Jun" 0 0 0;
       mkPoint "Jul" 0 0 0; mkPoint "Aug" 0 0 0; mkPoint "Sep" 0 0 0;
       mkPoint "Oct" 0 0 0; mkPoint "Nov" 0 0 0; mkPoint "Dec" 0 0 0;
       mkPoint "Jan" 0 0 0; mkPoint "Feb" 0 0 0; mkPoint "Mar" 25 1 0.25] =
  map (fun i => monthName ((JSDate.getMonth Sample.utc 1743163200000 - i) mod 12))
      (downto 12) /\
  List.length
      [mkPoint "Apr" 0 0 0; mkPoint "May" 0 0 0; mkPoint "Jun" 0 0 0;
       mkPoint "Jul" 0 0 0; mkPoint "Aug" 0 0 0; mkPoint "Sep" 0 0 0;
       mkPoint "Oct" 0 0 0; mkPoint "Nov" 0 0 0; mkPoint "Dec" 0 0 0;
       mkPoint "Jan" 0 0 0; mkPoint "Feb" 0 0 0; mkPoint "Mar" 25 1 0.25] = 12%nat.
Proof.
  apply (year_series_before_day_29 Sample.utc 0 1743163200000
           [Sample.tx_at Sample.noon_28_Mar (Some "25.00")]).
  - apply fixed_fixedZone.
  - vm_compute. discriminate.
  - vm_compute. reflexivity.
Defined.

(** In a zone with a fixed offset, on the days 1 to 28 of a month, a
    populated [year] run has the twelve month labels. *)
Lemma labels_year tza c now :
  JSDate.fixed tza c ->
  JSDate.getDate tza now <= 28 ->
  labels tza now year =
  map (fun i => monthName ((JSDate.getMonth tza now - i) mod 12)) (downto 12).
Proof.
  intros Hz Hd. rewrite labels_firstOccurrences. cbn [bucketCount].
  rewrite (map_ext _ (fun i => monthName ((JSDate.getMonth tza now - i) mod 12))).
  - apply monthNames_firstOccurrences. apply getMonth_range.
  - intros i. rewrite labelOf_bucketDate.
    apply (monthKey_monthName tza c now i Hz Hd).
Qed.


